(** * OnionTalks: the record -> transcribe -> expose-result lifecycle

    A shallow embedding of [OnionTalks.py]: the cached model loader
    [load_whisper_model], the transcription driver
    [process_and_transcribe_buffer] and the script body [main], over an
    explicit world (session state, resource cache, temporary files, the
    elements sent to the page).  Calls that leave the program (the
    Whisper library, the file system, the debug container) take their
    answer from an [environment] record, so that every theorem
    quantifies over every behaviour of those collaborators. *)

From Stdlib Require Import NArith.
From stdpp Require Import gmap strings list fin_maps.


(** ** Python values *)

(** A Python [str] is a sequence of Unicode code points. *)
Module PyStr.

Definition is_whitespace (ch : N) : bool :=
  ((9 <=? ch) && (ch <=? 13) || (28 <=? ch) && (ch <=? 32)
   || (ch =? 133) || (ch =? 160) || (ch =? 5760)
   || (8192 <=? ch) && (ch <=? 8202)
   || (ch =? 8232) || (ch =? 8233) || (ch =? 8239) || (ch =? 8287)
   || (ch =? 12288))%N.

Fixpoint lstrip (s : list N) : list N :=
  match s with
  | [] => []
  | ch :: rest => if is_whitespace ch then lstrip rest else s
  end.

Definition rstrip (s : list N) : list N := rev (lstrip (rev s)).

(** [str.strip()] without argument. *)
Definition strip (s : list N) : list N := rstrip (lstrip s).

(** A literal of the source, as code points. *)
Definition lit (s : string) : list N :=
  map Ascii.N_of_ascii (String.list_ascii_of_string s).

(** Truth value of a [str]: non-empty. *)
Definition truthy (s : list N) : bool :=
  match s with [] => false | _ => true end.

End PyStr.

Abbreviation pystr := (list N).
Abbreviation bytes := (list Byte.byte).
Abbreviation py := PyStr.lit.

(** The values that the script stores in [st.session_state]. *)
Inductive pyval : Type :=
| VNone
| VBool (b : bool)
| VStr (s : pystr)
| VBytes (b : bytes)
| VPlaceholder (id : nat).

(** Python's truth value testing. *)
Definition truthy (v : pyval) : bool :=
  match v with
  | VNone => false
  | VBool b => b
  | VStr s => PyStr.truthy s
  | VBytes b => match b with [] => false | _ => true end
  | VPlaceholder _ => true
  end.

(** What a script can raise.  [PyException] stands for every instance of
    [Exception] (OSError, RuntimeError, KeyError, AttributeError, ...)
    with its message; [RerunException] is Streamlit's script-control
    signal raised by [st.rerun()], which derives from [BaseException]
    only and is therefore not caught by [except Exception];
    [PyBaseException] stands for the other exceptions that are not
    instances of [Exception] (KeyboardInterrupt, SystemExit, ...). *)
Inductive pyexc : Type :=
| PyException (msg : pystr)
| RerunException
| PyBaseException (name : pystr).

Inductive outcome (A : Type) : Type :=
| Returns (a : A)
| Raises (e : pyexc).
Arguments Returns {A} a.
Arguments Raises {A} e.

(** The answer of a call that leaves the program: a value, or a failure
    that surfaces in the script as an [Exception] with that message.
    These are the failures that the [except Exception] clauses of the
    script are written for; a collaborator that is interrupted by an
    exception outside [Exception] is not among the answers, and the
    theorems on the driver and on the script do not speak about it. *)
Inductive ext (A : Type) : Type :=
| Answers (a : A)
| Fails (msg : pystr).
Arguments Answers {A} a.
Arguments Fails {A} msg.

(** ** The world *)

(** Elements sent to the page, in order. *)
Inductive element : Type :=
| Spinner (text : pystr)
| ErrorBox (body : pystr)
| DownloadButton (file_name : string) (data : pyval)
| NewPlaceholder (id : nat)
| PlaceholderEmpty (id : nat)
| PlaceholderMarkdown (id : nat) (body : pyval)
| ContainerMarkdown (id : nat) (body : pystr)
| ContainerWrite (id : nat) (message : pystr).

Inductive device : Type := cuda | cpu.

Record world : Type := World {
  session_state : gmap string pyval;      (* st.session_state *)
  cache_resource : gmap string nat;       (* st.cache_resource table of the loader *)
  loaded : list (string * device);        (* whisper.load_model calls that returned;
                                             a handle is an index in this list *)
  files : gmap string bytes;              (* the temporary directory *)
  transcribe_calls : list (nat * string); (* model.transcribe calls: handle, path *)
  page : list element;                    (* elements sent to the page *)
  stdout : list pystr;                    (* print *)
  placeholders : nat                      (* placeholders created so far *)
}.

Definition with_session (f : gmap string pyval -> gmap string pyval) (w : world) : world :=
  World (f (session_state w)) (cache_resource w) (loaded w) (files w)
        (transcribe_calls w) (page w) (stdout w) (placeholders w).

Definition with_cache (f : gmap string nat -> gmap string nat) (w : world) : world :=
  World (session_state w) (f (cache_resource w)) (loaded w) (files w)
        (transcribe_calls w) (page w) (stdout w) (placeholders w).

Definition with_loaded (f : list (string * device) -> list (string * device)) (w : world) : world :=
  World (session_state w) (cache_resource w) (f (loaded w)) (files w)
        (transcribe_calls w) (page w) (stdout w) (placeholders w).

Definition with_files (f : gmap string bytes -> gmap string bytes) (w : world) : world :=
  World (session_state w) (cache_resource w) (loaded w) (f (files w))
        (transcribe_calls w) (page w) (stdout w) (placeholders w).

Definition with_transcribe_calls (f : list (nat * string) -> list (nat * string)) (w : world) : world :=
  World (session_state w) (cache_resource w) (loaded w) (files w)
        (f (transcribe_calls w)) (page w) (stdout w) (placeholders w).

Definition with_page (f : list element -> list element) (w : world) : world :=
  World (session_state w) (cache_resource w) (loaded w) (files w)
        (transcribe_calls w) (f (page w)) (stdout w) (placeholders w).

Definition with_stdout (f : list pystr -> list pystr) (w : world) : world :=
  World (session_state w) (cache_resource w) (loaded w) (files w)
        (transcribe_calls w) (page w) (f (stdout w)) (placeholders w).

Definition with_placeholders (f : nat -> nat) (w : world) : world :=
  World (session_state w) (cache_resource w) (loaded w) (files w)
        (transcribe_calls w) (page w) (stdout w) (f (placeholders w)).

(** A process that has just started, with a fresh session. *)
Definition fresh_world : world := World ∅ ∅ [] ∅ [] [] [] 0.

(** The answers of the collaborators during one call. *)
Record environment : Type := Environment {
  cuda_is_available : bool;                    (* torch.cuda.is_available() *)
  whisper_load_model : ext unit;               (* whisper.load_model(size, device) *)
  mkstemp : ext string;                        (* directory and random stem on which the
                                                  search for an unused name ends *)
  file_write : ext unit;                       (* temp_audio_file.write *)
  file_close : ext unit;                       (* closing the file when the with block ends *)
  flushed : nat;                               (* how much of the data is in the file when the
                                                  write, or the flush of the close, fails *)
  whisper_transcribe : option bytes -> ext pystr; (* model.transcribe(path)["text"],
                                                  from what is stored at the path *)
  os_remove : ext unit;                        (* os.remove *)
  container_write : pystr -> ext unit          (* debug_log_container.write *)
}.

(** The values of the widgets during one run of the script. *)
Record widgets : Type := Widgets {
  selectbox : string;             (* "medium", "base" or "large-v2" *)
  checkbox : bool;                (* Debug-mode *)
  audio_input : option bytes;     (* None, or a recording and what read() gives *)
  button : bool                   (* Repeat transcription *)
}.

(** ** Statements: state and exceptions *)

Definition M (S A : Type) : Type := S -> outcome A * S.

Definition ret {S A} (a : A) : M S A := fun s => (Returns a, s).

Definition bind {S A B} (m : M S A) (k : A -> M S B) : M S B :=
  fun s => match m s with
           | (Returns a, s') => k a s'
           | (Raises e, s') => (Raises e, s')
           end.

Definition raise {S A} (e : pyexc) : M S A := fun s => (Raises e, s).

Definition modify {S} (f : S -> S) : M S unit := fun s => (Returns tt, f s).

Definition gets {S A} (f : S -> A) : M S A := fun s => (Returns (f s), s).

(** An answer of the environment, as a statement. *)
Definition call {S A} (x : ext A) : M S A :=
  match x with
  | Answers a => ret a
  | Fails msg => raise (PyException msg)
  end.

(** [try: body  except Exception as e: handler e]. *)
Definition try_except {S A} (body : M S A) (handler : pystr -> M S A) : M S A :=
  fun s => match body s with
           | (Raises (PyException msg), s') => handler msg s'
           | r => r
           end.

(** [try: body  finally: cleanup]: the cleanup runs on every exit of the
    body; an exception of the cleanup replaces the body's. *)
Definition try_finally {S A} (body : M S A) (cleanup : M S unit) : M S A :=
  fun s => match body s with
           | (r, s') =>
               match cleanup s' with
               | (Returns _, s'') => (r, s'')
               | (Raises e, s'') => (Raises e, s'')
               end
           end.

(** Local variables of a function that are assigned more than once live
    in a frame next to the world. *)
Definition lift {F A} (m : M world A) : M (F * world) A :=
  fun s => match m (snd s) with (r, w') => (r, (fst s, w')) end.

Definition assign {F} (v : F) : M (F * world) unit :=
  fun s => (Returns tt, (v, snd s)).

Definition local {F} : M (F * world) F :=
  fun s => (Returns (fst s), s).

Definition with_frame {F A} (init : F) (m : M (F * world) A) : M world A :=
  fun w => match m (init, w) with (r, s') => (r, snd s') end.

Declare Scope py_scope.
Delimit Scope py_scope with py_stmt.
Notation "x <- m ;; k" := (bind m (fun x => k))
  (at level 100, m at next level, k at level 200, right associativity) : py_scope.
Notation "m ;;; k" := (bind m (fun _ => k))
  (at level 100, k at level 200, right associativity) : py_scope.
Local Open Scope py_scope.

(** ** The framework and library calls of the script *)

(** [st.session_state.k = v]. *)
Definition setattr (k : string) (v : pyval) : M world unit :=
  modify (with_session (insert k v)).

(** [st.session_state.k]: an AttributeError when the key is not set. *)
Definition getattr (k : string) : M world pyval :=
  fun w => match session_state w !! k with
           | Some v => (Returns v, w)
           | None => (Raises (PyException (py "st.session_state has no attribute " ++ py k)), w)
           end.

(** [k in st.session_state]. *)
Definition hasattr (k : string) : M world bool :=
  gets (fun w => bool_decide (is_Some (session_state w !! k))).

(** [del st.session_state.k]. *)
Definition delattr (k : string) : M world unit :=
  modify (with_session (delete k)).

Definition emit (e : element) : M world unit :=
  modify (with_page (fun p => p ++ [e])).

Definition print (line : pystr) : M world unit :=
  modify (with_stdout (fun o => o ++ [line])).

(** [st.empty()] and [st.sidebar.empty()]: a new placeholder. *)
Definition st_empty : M world pyval :=
  id <- gets placeholders ;;
  modify (with_placeholders S) ;;;
  emit (NewPlaceholder id) ;;;
  ret (VPlaceholder id).

(** A method of a placeholder, called on a value read from the session. *)
Definition on_placeholder {A} (v : pyval) (method : nat -> M world A) : M world A :=
  match v with
  | VPlaceholder id => method id
  | _ => raise (PyException (py "object has no such attribute"))
  end.

Definition st_error (body : pystr) : M world unit := emit (ErrorBox body).

Definition st_spinner (text : pystr) : M world unit := emit (Spinner text).

Definition download_button (file_name : string) (data : pyval) : M world unit :=
  emit (DownloadButton file_name data).

(** [st.rerun()] stops the run of the script. *)
Definition st_rerun {A} : M world A := raise RerunException.

(** [tempfile.NamedTemporaryFile(delete=False, suffix=...)]: a new, empty
    file, opened exclusively under a name that ends with the suffix.
    The library draws random names and skips those that are taken, up to
    [TMP_MAX] of them; the environment gives the name on which this
    search ends.  It ends on a name that is taken only when no unused
    name was found, and the library then raises
    [FileExistsError(EEXIST, "No usable temporary file name found")]. *)
Definition NamedTemporaryFile (env : environment) (suffix : string) : M world string :=
  stem <- call (mkstemp env) ;;
  let name := stem +:+ suffix in
  existing <- gets (fun w => files w !! name) ;;
  match existing with
  | Some _ => raise (PyException (py "[Errno 17] No usable temporary file name found"))
  | None => modify (with_files (insert name [])) ;;; ret name
  end.

(** [temp_audio_file.write(data)].  The file object is buffered, and
    nothing reads the file before the [with] block is left: [files]
    holds what is found under the name from then on.  That is all of the
    data when the write and the close return, and a part of it, from the
    start, when one of them raises. *)
Definition write (env : environment) (name : string) (data : bytes) : M world unit :=
  match file_write env with
  | Answers _ => modify (with_files (alter (fun old => old ++ data) name))
  | Fails msg =>
      modify (with_files (alter (fun old => old ++ take (flushed env) data) name)) ;;;
      raise (PyException msg)
  end.

(** Closing the file when the [with] block ends flushes the buffer. *)
Definition close (env : environment) (name : string) : M world unit :=
  match file_close env with
  | Answers _ => ret tt
  | Fails msg =>
      modify (with_files (alter (take (flushed env)) name)) ;;;
      raise (PyException msg)
  end.

(** [model.transcribe(path)["text"]]. *)
Definition transcribe (env : environment) (model : nat) (path : string) : M world pystr :=
  modify (with_transcribe_calls (fun l => l ++ [(model, path)])) ;;;
  stored <- gets (fun w => files w !! path) ;;
  call (whisper_transcribe env stored).

(** [os.path.exists(path)]. *)
Definition os_path_exists (path : string) : M world bool :=
  gets (fun w => bool_decide (is_Some (files w !! path))).

(** [os.remove(path)]. *)
Definition remove (env : environment) (path : string) : M world unit :=
  call (os_remove env) ;;;
  existing <- gets (fun w => files w !! path) ;;
  match existing with
  | None => raise (PyException (py "FileNotFoundError"))
  | Some _ => modify (with_files (delete path))
  end.

(** ** The initialization of the backend *)

(** What PyTorch does in the three calls that the module makes when it
    is imported: each returns, or raises any exception, inside
    [Exception] or not. *)
Record torch : Type := Torch {
  torch_cuda_is_available : outcome bool;  (* torch.cuda.is_available() *)
  tensor_cuda : outcome unit;              (* torch.tensor([1.0]).cuda() *)
  tensor_cpu : outcome unit                (* torch.tensor([1.0]).cpu() *)
}.

(** A call that ends as given. *)
Definition ends {S A} (r : outcome A) : M S A := fun s => (r, s).

(** The [try] statement at the top of the module. *)
Definition initialize_backend (t : torch) : M world unit :=
  try_except
    (available <- ends (torch_cuda_is_available t) ;;
     (if available then ends (tensor_cuda t) else ret tt) ;;;
     ends (tensor_cpu t))
    (fun e => print (py "Warning: PyTorch dummy initialization failed: " ++ e)).

(** The exception that leaves the body of that [try], if one does: the
    one of the first call that raises. *)
Definition raised_in_warm_up (t : torch) : option pyexc :=
  match torch_cuda_is_available t with
  | Raises e => Some e
  | Returns available =>
      match (if available then tensor_cuda t else Returns tt) with
      | Raises e => Some e
      | Returns _ =>
          match tensor_cpu t with
          | Raises e => Some e
          | Returns _ => None
          end
      end
  end.

(** ** [load_whisper_model] *)

(** [@st.cache_resource], a decorator of the Streamlit library, as its
    documentation gives it: one table per decorated function for the
    life of the process, keyed by the arguments; a stored object is
    handed out itself, not a copy; a call that raises stores nothing;
    with the default arguments nothing expires. *)
Definition st_cache_resource (f : string -> M world nat) (arg : string) : M world nat :=
  hit <- gets (fun w => cache_resource w !! arg) ;;
  match hit with
  | Some handle => ret handle
  | None =>
      handle <- f arg ;;
      modify (with_cache (insert arg handle)) ;;;
      ret handle
  end.

(** [whisper.load_model(model_size, device=device)]: a new model object. *)
Definition load_model (env : environment) (model_size : string) (d : device) : M world nat :=
  call (whisper_load_model env) ;;;
  handle <- gets (fun w => length (loaded w)) ;;
  modify (with_loaded (fun l => l ++ [(model_size, d)])) ;;;
  ret handle.

(** The body of the decorated function. *)
Definition load_whisper_model_body (env : environment) (model_size : string) : M world nat :=
  let d := if cuda_is_available env then cuda else cpu in
  model <- load_model env model_size d ;;
  ret model.

Definition load_whisper_model (env : environment) (model_size : string) : M world nat :=
  st_cache_resource (load_whisper_model_body env) model_size.

(** ** [process_and_transcribe_buffer] *)

(** The nested helper [d_write], closed over [debug_mode] and
    [debug_log_container] ([None], or the container of a placeholder). *)
Definition d_write (env : environment) (debug_mode : bool) (debug_log_container : option nat)
    (message : pystr) : M world unit :=
  match debug_mode, debug_log_container with
  | true, Some id =>
      try_except
        (call (container_write env message) ;;; emit (ContainerWrite id message))
        (fun e => print (py "Debug write error: " ++ e))
  | _, _ => ret tt
  end.

(** [str(temp_audio_file_path)] inside an f-string. *)
Definition path_str (p : option string) : pystr :=
  match p with Some name => py name | None => py "None" end.

(** A path where the source needs one; [None] there is a TypeError. *)
Definition as_path {S} (p : option string) : M S string :=
  match p with
  | Some name => ret name
  | None => raise (PyException (py "expected str, bytes or os.PathLike object, not NoneType"))
  end.

(** Truth value of [temp_audio_file_path]. *)
Definition path_truthy (p : option string) : bool :=
  match p with
  | None => false
  | Some name => negb (String.eqb name "")
  end.

(** The local variable [temp_audio_file_path] is the frame of the
    function: it is [None] until the write has returned, and the
    [finally] block reads it. *)
Definition process_and_transcribe_buffer (env : environment) (model : nat)
    (audio_data : bytes) (debug_mode : bool) (debug_log_container : option nat)
    : M world unit :=
  let d_write := d_write env debug_mode debug_log_container in
  setattr "transcript" (VStr []) ;;;
  area <- st_empty ;;
  setattr "transcript_display_area" area ;;;
  st_spinner (py "Transcribing...") ;;;
  d_write (py "--- Entering process_and_transcribe_buffer ---") ;;;
  with_frame None
    (try_finally
       (try_except
          (temp_audio_file <- lift (NamedTemporaryFile env ".wav") ;;
           try_finally
             (lift (write env temp_audio_file audio_data) ;;;
              assign (Some temp_audio_file))
             (lift (close env temp_audio_file)) ;;;
           temp_audio_file_path <- local ;;
           lift (d_write (py "Temporary audio file: " ++ path_str temp_audio_file_path)) ;;;
           path <- as_path temp_audio_file_path ;;
           transcribed_text <- lift (transcribe env model path) ;;
           lift (d_write (py "Whisper transcribed: '" ++ transcribed_text ++ py "'")) ;;;
           if PyStr.truthy transcribed_text && PyStr.truthy (PyStr.strip transcribed_text)
           then
             lift (setattr "transcript" (VStr (PyStr.strip transcribed_text))) ;;;
             transcript <- lift (getattr "transcript") ;;
             lift (d_write (py "Session transcript updated: '"
                            ++ match transcript with VStr s => s | _ => [] end ++ py "'"))
           else
             lift (d_write (py "Transcription resulted in empty text.")))
          (fun e =>
             lift (st_error (py "Transcription error: " ++ e)) ;;;
             lift (d_write (py "ERROR during transcription: " ++ e))))
       (temp_audio_file_path <- local ;;
        if path_truthy temp_audio_file_path then
          path <- as_path temp_audio_file_path ;;
          present <- lift (os_path_exists path) ;;
          if present then
            try_except
              (lift (remove env path) ;;;
               lift (d_write (py "Temporary file deleted: " ++ path_str temp_audio_file_path)))
              (fun e_del => lift (d_write (py "Error deleting temp file: " ++ e_del)))
          else ret tt
        else ret tt)) ;;;
  d_write (py "--- Exiting process_and_transcribe_buffer ---").

(** ** [main]: one run of the script *)

(** The script body is given block by block, in the order of the source;
    [main] below chains the blocks.  The calls that only lay out the page
    (page configuration, titles, separators, the info box and the widget
    labels) leave the world unchanged and are not listed. *)

(** "Initialize session state variables": each key is set only when it
    is not in the session yet. *)
Definition initialize_session_state : M world unit :=
  (present <- hasattr "transcript" ;;
   if present then ret tt else setattr "transcript" (VStr [])) ;;;
  (present <- hasattr "audio_data" ;;
   if present then ret tt else setattr "audio_data" VNone) ;;;
  (present <- hasattr "transcribed" ;;
   if present then ret tt else setattr "transcribed" (VBool false)).

(** "Initialize the transcript display area" and "Debug log display
    area"; the result is [debug_log_display_area]. *)
Definition display_areas (debug_mode : bool) : M world (option nat) :=
  (present <- hasattr "transcript_display_area" ;;
   if present then ret tt
   else area <- st_empty ;; setattr "transcript_display_area" area) ;;;
  if debug_mode then
    (present <- hasattr "debug_log_placeholder" ;;
     if present then ret tt
     else slot <- st_empty ;; setattr "debug_log_placeholder" slot) ;;;
    slot <- getattr "debug_log_placeholder" ;;
    on_placeholder slot (fun id =>
      emit (ContainerMarkdown id (py "--- Debug Log ---")) ;;;
      ret (Some id))
  else
    present <- hasattr "debug_log_placeholder" ;;
    if present then
      slot <- getattr "debug_log_placeholder" ;;
      on_placeholder slot (fun id => emit (PlaceholderEmpty id)) ;;;
      delattr "debug_log_placeholder" ;;;
      ret None
    else ret None.

(** "Process and transcribe the audio if it hasn't been transcribed yet". *)
Definition transcribe_pending (env : environment) (model : nat)
    (audio_recording : option bytes) (debug_mode : bool)
    (debug_log_display_area : option nat) : M world unit :=
  match audio_recording with
  | Some recording =>
      transcribed <- getattr "transcribed" ;;
      if negb (truthy transcribed) then
        let audio_data := recording in
        setattr "audio_data" (VBytes audio_data) ;;;
        if truthy (VBytes audio_data) then
          setattr "transcribed" (VBool true) ;;;
          process_and_transcribe_buffer env model audio_data debug_mode debug_log_display_area
        else ret tt
      else ret tt
  | None => ret tt
  end.

(** "Display download buttons for audio and transcript if they exist". *)
Definition download_buttons : M world unit :=
  (audio_data <- getattr "audio_data" ;;
   if truthy audio_data then download_button "Recording.mp3" audio_data else ret tt) ;;;
  (transcribed <- getattr "transcribed" ;;
   if truthy transcribed then
     transcript <- getattr "transcript" ;;
     download_button "transcript.txt" transcript
   else ret tt).

(** "Reset button to clear transcript and audio data": the body of the
    [if] on the button "Repeat transcription". *)
Definition repeat_transcription : M world unit :=
  setattr "transcript" (VStr []) ;;;
  setattr "audio_data" VNone ;;;
  setattr "transcribed" (VBool false) ;;;
  area <- getattr "transcript_display_area" ;;
  on_placeholder area (fun id => emit (PlaceholderEmpty id)) ;;;
  st_rerun.

(** "Display the transcript". *)
Definition display_transcript : M world unit :=
  area <- getattr "transcript_display_area" ;;
  on_placeholder area (fun id =>
    transcript <- getattr "transcript" ;;
    body <- (if truthy transcript then getattr "transcript"
             else ret (VStr (py "*No transcription yet.*"))) ;;
    emit (PlaceholderMarkdown id body)).

Definition main (env : environment) (ui : widgets) : M world unit :=
  let WHISPER_MODEL_SIZE := selectbox ui in
  let debug_mode := checkbox ui in
  initialize_session_state ;;;
  model <- load_whisper_model env WHISPER_MODEL_SIZE ;;
  let audio_recording := audio_input ui in
  debug_log_display_area <- display_areas debug_mode ;;
  transcribe_pending env model audio_recording debug_mode debug_log_display_area ;;;
  download_buttons ;;;
  (if button ui then repeat_transcription else ret tt) ;;;
  display_transcript.

(** ** What a statement returns and what it leaves *)

Definition result {S A} (m : M S A) (s : S) : outcome A := fst (m s).

Definition after {S A} (m : M S A) (s : S) : S := snd (m s).

(** A property of the result and of the world after a statement. *)
Definition wp {S A} (m : M S A) (Q : outcome A -> S -> Prop) (s : S) : Prop :=
  Q (result m s) (after m s).

(** The page without the lines of the debug log. *)
Definition is_debug_write (e : element) : bool :=
  match e with ContainerWrite _ _ => true | _ => false end.

Definition shown (p : list element) : list element :=
  List.filter (fun e => negb (is_debug_write e)) p.

(** The bodies of the error boxes on a page. *)
Definition error_boxes (p : list element) : list pystr :=
  omap (fun e => match e with ErrorBox body => Some body | _ => None end) p.

(** The lines of the debug log on a page. *)
Definition debug_lines (p : list element) : list element := List.filter is_debug_write p.

(** Neither a line of the debug log nor a line of the standard output
    was added between two worlds. *)
Definition quiet (w w' : world) : Prop :=
  stdout w' = stdout w /\ debug_lines (page w') = debug_lines (page w).

(** What the last two blocks of the script show for a session: the
    download buttons, and the transcript in its display area. *)
Definition downloads (ss : gmap string pyval) : list element :=
  let audio_data := default VNone (ss !! "audio_data") in
  let transcribed := default VNone (ss !! "transcribed") in
  let transcript := default VNone (ss !! "transcript") in
  (if truthy audio_data then [DownloadButton "Recording.mp3" audio_data] else [])
  ++ (if truthy transcribed then [DownloadButton "transcript.txt" transcript] else []).

Definition transcript_display (ss : gmap string pyval) : list element :=
  let transcript := default VNone (ss !! "transcript") in
  match ss !! "transcript_display_area" with
  | Some (VPlaceholder id) =>
      [PlaceholderMarkdown id
         (if truthy transcript then transcript else VStr (py "*No transcription yet.*"))]
  | _ => []
  end.

(** ** The ways out of the [try] block of the driver *)

(** The [try] block of [process_and_transcribe_buffer] runs to its end:
    the temporary file is created under a new name, written and closed,
    and the model returns [text] for what was written. *)
Definition attempt_succeeds (env : environment) (audio_data : bytes) (w : world)
    (text : pystr) : Prop :=
  exists stem,
    mkstemp env = Answers stem /\ files w !! (stem +:+ ".wav") = None /\
    file_write env = Answers tt /\ file_close env = Answers tt /\
    whisper_transcribe env (Some audio_data) = Answers text.

(** The [try] block is left by an exception: creating, writing or
    closing the temporary file fails, or the model's transcribe call
    does. *)
Definition attempt_fails (env : environment) (audio_data : bytes) (w : world) : Prop :=
  (exists msg, mkstemp env = Fails msg) \/
  (exists stem, mkstemp env = Answers stem /\ is_Some (files w !! (stem +:+ ".wav"))) \/
  (exists msg, file_write env = Fails msg) \/
  (exists msg, file_close env = Fails msg) \/
  (exists msg, whisper_transcribe env (Some audio_data) = Fails msg).

(** The message of the exception that leaves the [try] block when the
    temporary file is created under a name that was not taken, if one
    does: of the search for the name, of closing the file when the
    [with] block ends (it replaces an exception of the write), of the
    write, or of the model's call. *)
Definition raised_in_try (env : environment) (audio_data : bytes) : option pystr :=
  match mkstemp env with
  | Fails msg => Some msg
  | Answers _ =>
      match file_close env, file_write env with
      | Fails msg, _ => Some msg
      | Answers _, Fails msg => Some msg
      | Answers _, Answers _ =>
          match whisper_transcribe env (Some audio_data) with
          | Fails msg => Some msg
          | Answers _ => None
          end
      end
  end.

(** ** Sessions and process lifetimes *)

(** [d.setdefault(k, v)] on the session: what
    [if k not in st.session_state: st.session_state.k = v] leaves. *)
Definition setdefault (k : string) (v : pyval) (ss : gmap string pyval) : gmap string pyval :=
  match ss !! k with
  | Some _ => ss
  | None => <[k:=v]> ss
  end.

(** The recording of the session has not been transcribed: [transcribed]
    is false, or not set yet (the script then sets it to [False]). *)
Definition pending (w : world) : bool :=
  match session_state w !! "transcribed" with
  | Some v => negb (truthy v)
  | None => true
  end.

(** The two keys that hold page placeholders hold nothing else. *)
Definition placeholder_or_absent (o : option pyval) : bool :=
  match o with
  | Some (VPlaceholder _) | None => true
  | Some _ => false
  end.

Definition areas_ok (w : world) : bool :=
  placeholder_or_absent (session_state w !! "transcript_display_area")
  && placeholder_or_absent (session_state w !! "debug_log_placeholder").

(** What happens during the life of a process: runs of the script and
    calls of the loader, each with the answers of the collaborators. *)
Inductive event : Type :=
| RunScript (env : environment) (ui : widgets)
| LoadModel (env : environment) (model_size : string).

Definition happen (w : world) (e : event) : world :=
  match e with
  | RunScript env ui => after (main env ui) w
  | LoadModel env model_size => after (load_whisper_model env model_size) w
  end.

Definition lifetime (events : list event) (start : world) : world :=
  fold_left happen events start.

(** The transcript is not set, or is the empty string. *)
Definition transcript_blank (w : world) : bool :=
  match session_state w !! "transcript" with
  | None | Some (VStr []) => true
  | Some _ => false
  end.

(** What holds of the session between the runs of the script: the
    display areas are placeholders, and as long as the recording is not
    transcribed there is no transcript. *)
Definition session_ok (w : world) : bool :=
  areas_ok w && (negb (pending w) || transcript_blank w).

(** A statement that keeps an invariant of the world, on every way out. *)
Class Preserves (I : world -> Prop) {A} (m : M world A) : Prop :=
  preserves : forall w, I w -> I (after m w).

(** The session as the script has it once the display areas are set up:
    the three state keys are set and the transcript area is a
    placeholder. *)
Definition session_ready (w : world) : Prop :=
  is_Some (session_state w !! "transcript") /\
  is_Some (session_state w !! "audio_data") /\
  is_Some (session_state w !! "transcribed") /\
  exists id, session_state w !! "transcript_display_area" = Some (VPlaceholder id).

(** The button "Repeat transcription" is not pressed during the event. *)
Definition no_reset (e : event) : bool :=
  match e with
  | RunScript _ ui => negb (button ui)
  | LoadModel _ _ => true
  end.

(** How often the library has loaded a model of the given size. *)
Definition count_loads (model_size : string) (w : world) : nat :=
  length (List.filter (fun l => String.eqb (fst l) model_size) (loaded w)).

(** The resource cache holds exactly the sizes that were loaded, each
    loaded once. *)
Definition cache_consistent (w : world) : Prop :=
  forall model_size,
    count_loads model_size w
    = match cache_resource w !! model_size with Some _ => 1 | None => 0 end.

(** A statement that touches neither the resource cache, the loaded
    models, the files nor the model: it only changes the session, the
    page and the standard output. *)
Definition ui_only (w w' : world) : Prop :=
  cache_resource w' = cache_resource w /\ loaded w' = loaded w /\
  files w' = files w /\ transcribe_calls w' = transcribe_calls w.

Class UiOnly {A} (m : M world A) : Prop :=
  ui_only_after : forall w, ui_only w (after m w).

Class KeepsSession {A} (m : M world A) : Prop :=
  session_after : forall w, session_state (after m w) = session_state w.

Class KeepsErrors {A} (m : M world A) : Prop :=
  errors_after : forall w, error_boxes (page (after m w)) = error_boxes (page w).

(** The transcript of the session, when there is one, is a string that
    is its own trimmed form. *)
Definition transcript_trimmed (w : world) : bool :=
  match session_state w !! "transcript" with
  | None => true
  | Some (VStr T) => bool_decide (PyStr.strip T = T)
  | Some _ => false
  end.

(** A transcribed recording is still in the session: [audio_data] holds
    bytes, and not the empty buffer, unless the recording is pending. *)
Definition recording_kept (w : world) : bool :=
  pending w
  || match session_state w !! "audio_data" with
     | Some (VBytes (_ :: _)) => true
     | _ => false
     end.

Definition session_sound (w : world) : bool := transcript_trimmed w && recording_kept w.

(** The recording is transcribed and the session holds [v] under [k]. *)
Definition kept (k : string) (v : pyval) (w : world) : Prop :=
  pending w = false /\ session_state w !! k = Some v.

(** During the event, writing to the temporary file and deleting it go
    through. *)
Definition tidy (e : event) : bool :=
  match e with
  | RunScript env _ =>
      match file_write env, os_remove env with
      | Answers _, Answers _ => true
      | _, _ => false
      end
  | LoadModel _ _ => true
  end.

(** Every handle in the resource cache is a model that the library
    loaded for the size under which it is stored. *)
Definition cache_sound (w : world) : Prop :=
  forall model_size handle,
    cache_resource w !! model_size = Some handle ->
    exists d, loaded w !! handle = Some (model_size, d).

(** ** Sample inputs *)

(** Four bytes of a recording. *)
Definition riff : bytes := [Byte.x52; Byte.x49; Byte.x46; Byte.x46].

(** Collaborators that answer, but for the three calls given. *)
Definition studio (writing : ext unit) (text : ext pystr) (deletion : ext unit) : environment :=
  Environment false (Answers tt) (Answers "/tmp/tmpq1") writing (Answers tt) 0
    (fun _ => text) deletion (fun _ => Answers tt).

(** The widgets after a recording, with the model "base". *)
Definition recorded (recording : bytes) : widgets :=
  Widgets "base" false (Some recording) false.

(** A session that holds an earlier transcript. *)
Definition told : world :=
  with_session (insert "transcript" (VStr (py "hello"))) fresh_world.

(** * Reasoning about statements *)

Section Rules.
Context {S : Type}.

Lemma run_eq {A} (m : M S A) s : m s = (result m s, after m s).
Proof. unfold result, after. by destruct (m s). Qed.

Lemma wp_ret {A} (a : A) (Q : outcome A -> S -> Prop) s :
  Q (Returns a) s -> wp (ret a) Q s.
Proof. done. Qed.

Lemma wp_raise {A} e (Q : outcome A -> S -> Prop) s :
  Q (Raises e) s -> wp (raise e) Q s.
Proof. done. Qed.

Lemma wp_modify f (Q : outcome unit -> S -> Prop) s :
  Q (Returns tt) (f s) -> wp (modify f) Q s.
Proof. done. Qed.

Lemma wp_call {A} (x : ext A) (Q : outcome A -> S -> Prop) s :
  match x with
  | Answers a => Q (Returns a) s
  | Fails msg => Q (Raises (PyException msg)) s
  end -> wp (call x) Q s.
Proof. by destruct x. Qed.

Lemma wp_bind {A B} (m : M S A) (k : A -> M S B) (Q : outcome B -> S -> Prop) s :
  wp m (fun r s' => match r with
                    | Returns a => wp (k a) Q s'
                    | Raises e => Q (Raises e) s'
                    end) s ->
  wp (bind m k) Q s.
Proof.
  unfold wp, result, after, bind. destruct (m s) as [[a|e] s']; done.
Qed.

Lemma wp_try_except {A} (body : M S A) handler (Q : outcome A -> S -> Prop) s :
  wp body (fun r s' => match r with
                       | Raises (PyException msg) => wp (handler msg) Q s'
                       | _ => Q r s'
                       end) s ->
  wp (try_except body handler) Q s.
Proof.
  unfold wp, result, after, try_except. destruct (body s) as [[a|[msg| |name]] s']; done.
Qed.

Lemma wp_try_finally {A} (body : M S A) cleanup (Q : outcome A -> S -> Prop) s :
  wp body (fun r s' =>
    wp cleanup (fun r' s'' => match r' with
                              | Returns _ => Q r s''
                              | Raises e => Q (Raises e) s''
                              end) s') s ->
  wp (try_finally body cleanup) Q s.
Proof.
  unfold wp, result, after, try_finally. destruct (body s) as [r s']. simpl.
  destruct (cleanup s') as [[u|e] s'']; done.
Qed.

(** [except Exception] catches the instances of [Exception] only: what
    else the body raises leaves the [try] statement. *)
Lemma try_except_passes {A} (body : M S A) handler s e :
  result body s = Raises e -> (forall msg, e <> PyException msg) ->
  try_except body handler s = body s.
Proof.
  unfold result, try_except. destruct (body s) as [[a|[msg| |name]] s']; try done.
  simpl. intros [= <-] H. by destruct (H msg).
Qed.

End Rules.

Lemma wp_lift {F A} (m : M world A) (Q : outcome A -> F * world -> Prop) f w :
  wp m (fun r w' => Q r (f, w')) w -> wp (lift m) Q (f, w).
Proof. unfold wp, result, after, lift. simpl. by destruct (m w). Qed.

Lemma wp_assign {F} (v : F) (Q : outcome unit -> F * world -> Prop) f w :
  Q (Returns tt) (v, w) -> wp (assign v) Q (f, w).
Proof. done. Qed.

Lemma wp_local {F} (Q : outcome F -> F * world -> Prop) f w :
  Q (Returns f) (f, w) -> wp local Q (f, w).
Proof. done. Qed.

Lemma wp_with_frame {F A} (init : F) (m : M (F * world) A) (Q : outcome A -> world -> Prop) w :
  wp m (fun r s' => Q r (snd s')) (init, w) -> wp (with_frame init m) Q w.
Proof. unfold wp, result, after, with_frame. by destruct (m (init, w)). Qed.

(** ** Observing the page *)

Lemma shown_app p q : shown (p ++ q) = shown p ++ shown q.
Proof. apply List.filter_app. Qed.

Lemma error_boxes_app p q : error_boxes (p ++ q) = error_boxes p ++ error_boxes q.
Proof. apply omap_app. Qed.

Lemma error_boxes_shown p : error_boxes (shown p) = error_boxes p.
Proof.
  induction p as [|e p IH]; [done|].
  destruct e; simpl; rewrite ?IH; done.
Qed.


(** ** [d_write] only writes to the debug log *)

Section DWrite.
Variables (env : environment) (debug_mode : bool) (debug_log_container : option nat).
Variable message : pystr.

Let dw := d_write env debug_mode debug_log_container message.

Lemma d_write_returns w : result dw w = Returns tt.
Proof.
  unfold dw, d_write, result. destruct debug_mode, debug_log_container; try done.
  unfold try_except, bind, call. by destruct (container_write env message).
Qed.

Ltac d_write_cases :=
  unfold dw, d_write, after; destruct debug_mode, debug_log_container; try done;
  unfold try_except, bind, call; destruct (container_write env message); try done.

Lemma d_write_session_state w : session_state (after dw w) = session_state w.
Proof. d_write_cases. Qed.
Lemma d_write_cache_resource w : cache_resource (after dw w) = cache_resource w.
Proof. d_write_cases. Qed.
Lemma d_write_loaded w : loaded (after dw w) = loaded w.
Proof. d_write_cases. Qed.
Lemma d_write_files w : files (after dw w) = files w.
Proof. d_write_cases. Qed.
Lemma d_write_transcribe_calls w : transcribe_calls (after dw w) = transcribe_calls w.
Proof. d_write_cases. Qed.
Lemma d_write_placeholders w : placeholders (after dw w) = placeholders w.
Proof. d_write_cases. Qed.
Lemma d_write_shown w : shown (page (after dw w)) = shown (page w).
Proof.
  d_write_cases. simpl. unfold shown. rewrite List.filter_app. simpl. apply app_nil_r.
Qed.

Lemma d_write_error_boxes w : error_boxes (page (after dw w)) = error_boxes (page w).
Proof. by rewrite <- error_boxes_shown, d_write_shown, error_boxes_shown. Qed.

Lemma wp_d_write (Q : outcome unit -> world -> Prop) w :
  Q (Returns tt) (after dw w) -> wp dw Q w.
Proof. unfold wp. by rewrite d_write_returns. Qed.

End DWrite.


Lemma wp_getattr k (Q : outcome pyval -> world -> Prop) w :
  match session_state w !! k with
  | Some v => Q (Returns v) w
  | None => Q (Raises (PyException (py "st.session_state has no attribute " ++ py k))) w
  end -> wp (getattr k) Q w.
Proof. unfold wp, result, after, getattr. by destruct (session_state w !! k). Qed.

Lemma wp_gets_eq {S A} (f : S -> A) (Q : outcome A -> S -> Prop) s v :
  f s = v -> Q (Returns v) s -> wp (gets f) Q s.
Proof. by intros <-. Qed.

Lemma wp_getattr_eq k (Q : outcome pyval -> world -> Prop) w o :
  session_state w !! k = o ->
  match o with
  | Some v => Q (Returns v) w
  | None => Q (Raises (PyException (py "st.session_state has no attribute " ++ py k))) w
  end -> wp (getattr k) Q w.
Proof. intros <-. apply wp_getattr. Qed.

(** Projections of the world after the setters and after [d_write];
    [block_simpl] is extended below with the blocks of the script. *)
Ltac block_simpl := fail.

Ltac world_simpl :=
  repeat first
    [ block_simpl
    | progress cbn [session_state cache_resource loaded files transcribe_calls page
                    stdout placeholders with_session with_cache with_loaded with_files
                    with_transcribe_calls with_page with_stdout with_placeholders]
    | rewrite d_write_session_state | rewrite d_write_cache_resource
    | rewrite d_write_loaded | rewrite d_write_files | rewrite d_write_transcribe_calls
    | rewrite d_write_placeholders | rewrite d_write_shown | rewrite d_write_error_boxes
    | rewrite shown_app | rewrite error_boxes_app
    | progress cbn [shown error_boxes omap list_omap List.filter negb is_debug_write] ].

(** Lookups after insertions and deletions, and with what is known. *)
Ltac map_simpl :=
  repeat first
    [ rewrite lookup_insert_eq | rewrite lookup_insert_ne by done
    | rewrite lookup_delete_eq | rewrite lookup_delete_ne by done
    | rewrite lookup_alter_eq | rewrite lookup_alter_ne by done
    | match goal with H : ?m !! ?k = _ |- context [?m !! ?k] => rewrite H end
    | rewrite bool_decide_eq_true_2 by (eexists; reflexivity)
    | rewrite bool_decide_eq_false_2 by (apply is_Some_None)
    | progress cbn [fmap option_fmap option_map app] ].

(** The value that a read of the world gives. *)
Ltac calc := cbv beta; repeat (progress (world_simpl; map_simpl)); reflexivity.

(** The name of a temporary file is not the empty string. *)
Lemma temp_name_truthy stem suffix :
  suffix <> EmptyString -> negb (String.eqb (stem +:+ suffix) "") = true.
Proof. intros H. destruct stem; [by destruct suffix|done]. Qed.

(** One step of symbolic execution of a statement. *)
Ltac wp_step :=
  lazymatch goal with
  | |- wp (bind _ _) _ _ => apply wp_bind
  | |- wp (ret _) _ _ => apply wp_ret
  | |- wp (raise _) _ _ => apply wp_raise
  | |- wp (modify _) _ _ => apply wp_modify
  | |- wp (gets _) _ _ => eapply wp_gets_eq; [calc|]
  | |- wp (call _) _ _ => apply wp_call
  | |- wp (try_except _ _) _ _ => apply wp_try_except
  | |- wp (try_finally _ _) _ _ => apply wp_try_finally
  | |- wp (lift _) _ _ => apply wp_lift
  | |- wp (assign _) _ _ => apply wp_assign
  | |- wp local _ _ => apply wp_local
  | |- wp (with_frame _ _) _ _ => apply wp_with_frame
  | |- wp (d_write _ _ _ _) _ _ => apply wp_d_write
  | |- wp (getattr _) _ _ => eapply wp_getattr_eq; [calc|]
  | |- wp (setattr _ _) _ _ => unfold setattr
  | |- wp (hasattr _) _ _ => unfold hasattr
  | |- wp (delattr _) _ _ => unfold delattr
  | |- wp (emit _) _ _ => unfold emit
  | |- wp (print _) _ _ => unfold print
  | |- wp st_empty _ _ => unfold st_empty
  | |- wp (st_error _) _ _ => unfold st_error
  | |- wp (st_spinner _) _ _ => unfold st_spinner
  | |- wp (download_button _ _) _ _ => unfold download_button
  | |- wp st_rerun _ _ => unfold st_rerun
  | |- wp (on_placeholder _ _) _ _ => unfold on_placeholder
  | |- wp (as_path _) _ _ => unfold as_path
  | |- wp (NamedTemporaryFile _ _) _ _ => unfold NamedTemporaryFile
  | |- wp (write _ _ _) _ _ => unfold write
  | |- wp (close _ _) _ _ => unfold close
  | |- wp (transcribe _ _ _) _ _ => unfold transcribe
  | |- wp (os_path_exists _) _ _ => unfold os_path_exists
  | |- wp (remove _ _) _ _ => unfold remove
  | |- wp (if ?b then _ else _) _ _ =>
      first [ match goal with H : b = _ |- _ => rewrite H end
            | progress cbn [path_truthy]; rewrite ?temp_name_truthy by done
            | progress cbn [truthy negb]
            | match goal with
              | H : ?x = _ |- _ => match b with context [x] => rewrite H; cbn [negb] end
              end
            | destruct b eqn:? ]
  | |- wp (match ?x with _ => _ end) _ _ =>
      first [ match goal with H : x = _ |- _ => rewrite H end | destruct x eqn:? ]
  | |- match ?x with _ => _ end =>
      first [ match goal with H : x = _ |- _ => rewrite H end | destruct x eqn:? ]
  end; cbn [fst snd]; cbv beta iota zeta.

Ltac wp_run := repeat wp_step.

(** Closing a branch of the symbolic execution: the projections of the
    final world are computed, then the lookups in its maps. *)
Ltac leaf := repeat (progress (world_simpl; map_simpl)); rewrite <- ?app_assoc; try done.

(** * The transcription driver *)

Lemma attempt_succeeds_or_fails env audio_data w :
  (exists text, attempt_succeeds env audio_data w text) \/ attempt_fails env audio_data w.
Proof.
  unfold attempt_succeeds, attempt_fails.
  destruct (mkstemp env) as [stem|msg] eqn:Hs; [|naive_solver].
  destruct (files w !! (stem +:+ ".wav")) as [old|] eqn:Hf; [naive_solver|].
  destruct (file_write env) as [[]|msg] eqn:Hw; [|naive_solver].
  destruct (file_close env) as [[]|msg] eqn:Hc; [|naive_solver].
  destruct (whisper_transcribe env (Some audio_data)) as [text|msg] eqn:Ht; naive_solver.
Qed.

Lemma attempt_not_both env audio_data w text :
  attempt_succeeds env audio_data w text -> attempt_fails env audio_data w -> False.
Proof.
  intros (stem & Hs & Hf & Hw & Hc & Ht) H. unfold attempt_fails in H.
  destruct H as [[? ?]|[(? & ? & [? ?])|[[? ?]|[[? ?]|[? ?]]]]]; simplify_eq; congruence.
Qed.

Section Driver.
Variables (env : environment) (model : nat) (audio_data : bytes).
Variables (debug_mode : bool) (debug_log_container : option nat).

Local Abbreviation driver :=
  (process_and_transcribe_buffer env model audio_data debug_mode debug_log_container).

Ltac driver_run Q :=
  match goal with
  | |- context [after _ ?w] => change (wp driver Q w)
  | |- context [result _ ?w] => change (wp driver Q w)
  end;
  unfold process_and_transcribe_buffer; cbv zeta; wp_run.

(** What holds on every path through the driver: it returns, it keeps
    the resource cache, and in the session it writes only the transcript
    and the display area. *)
Lemma driver_frame w :
  result driver w = Returns tt /\
  cache_resource (after driver w) = cache_resource w /\
  loaded (after driver w) = loaded w /\
  placeholders (after driver w) = S (placeholders w) /\
  session_state (after driver w) !! "transcript_display_area"
  = Some (VPlaceholder (placeholders w)) /\
  forall k, k <> "transcript" -> k <> "transcript_display_area" ->
            session_state (after driver w) !! k = session_state w !! k.
Proof.
  driver_run (fun (r : outcome unit) w' =>
    r = Returns tt /\ cache_resource w' = cache_resource w /\ loaded w' = loaded w /\
    placeholders w' = S (placeholders w) /\
    session_state w' !! "transcript_display_area" = Some (VPlaceholder (placeholders w)) /\
    forall k, k <> "transcript" -> k <> "transcript_display_area" ->
              session_state w' !! k = session_state w !! k).
  all: repeat split; try (intros k H1 H2); leaf.
Qed.

Lemma driver_returns w : result driver w = Returns tt.
Proof. apply driver_frame. Qed.

Lemma driver_cache_resource w : cache_resource (after driver w) = cache_resource w.
Proof. apply driver_frame. Qed.

Lemma driver_loaded w : loaded (after driver w) = loaded w.
Proof. apply driver_frame. Qed.

Lemma driver_placeholders w : placeholders (after driver w) = S (placeholders w).
Proof. apply driver_frame. Qed.

Lemma driver_display_area w :
  session_state (after driver w) !! "transcript_display_area"
  = Some (VPlaceholder (placeholders w)).
Proof. apply driver_frame. Qed.

Lemma driver_session_frame w k :
  k <> "transcript" -> k <> "transcript_display_area" ->
  session_state (after driver w) !! k = session_state w !! k.
Proof. apply driver_frame. Qed.

(** When the [try] block fails, the transcript is the empty string that
    the driver stored on entry, and one error box is shown. *)
Lemma driver_failure w :
  attempt_fails env audio_data w ->
  session_state (after driver w) !! "transcript" = Some (VStr []) /\
  exists msg,
    shown (page (after driver w))
    = shown (page w) ++ [NewPlaceholder (placeholders w); Spinner (py "Transcribing...");
                         ErrorBox (py "Transcription error: " ++ msg)].
Proof.
  intros [[msg H]|[(stem & H & [old H'])|[[msg H]|[[msg H]|[msg H]]]]].
  all: driver_run (fun (_ : outcome unit) w' =>
         session_state w' !! "transcript" = Some (VStr []) /\
         exists msg,
           shown (page w')
           = shown (page w) ++ [NewPlaceholder (placeholders w); Spinner (py "Transcribing...");
                                ErrorBox (py "Transcription error: " ++ msg)]).
  all: split; [leaf | eexists; leaf].
Qed.

Lemma strip_falsy text :
  PyStr.truthy text && PyStr.truthy (PyStr.strip text) = false -> PyStr.strip text = [].
Proof.
  destruct text as [|ch rest]; [done|]. simpl.
  by destruct (PyStr.strip (ch :: rest)).
Qed.

(** When the [try] block runs to its end, the transcript is the trimmed
    text of the model and no error box is shown. *)
Lemma driver_success w text :
  attempt_succeeds env audio_data w text ->
  session_state (after driver w) !! "transcript" = Some (VStr (PyStr.strip text)) /\
  shown (page (after driver w))
  = shown (page w) ++ [NewPlaceholder (placeholders w); Spinner (py "Transcribing...")].
Proof.
  intros (stem & Hs & Hf & Hw & Hc & Ht).
  driver_run (fun (_ : outcome unit) w' =>
    session_state w' !! "transcript" = Some (VStr (PyStr.strip text)) /\
    shown (page w')
    = shown (page w) ++ [NewPlaceholder (placeholders w); Spinner (py "Transcribing...")]).
  all: split; leaf.
  all: match goal with H : _ && _ = false |- _ => by rewrite (strip_falsy _ H) end.
Qed.

(** The temporary directory is as before once the buffer was written
    and the deletion goes through, whatever happens in between. *)
Lemma driver_files w stem :
  mkstemp env = Answers stem -> files w !! (stem +:+ ".wav") = None ->
  file_write env = Answers tt -> os_remove env = Answers tt ->
  files (after driver w) = files w.
Proof.
  intros Hs Hf Hw Hr.
  driver_run (fun (_ : outcome unit) w' => files w' = files w).
  all: leaf.
  all: by rewrite !delete_alter_eq, delete_insert_eq, delete_id.
Qed.

End Driver.

Lemma d_write_on env id message w :
  container_write env message = Answers tt ->
  after (d_write env true (Some id) message) w
  = with_page (fun p => p ++ [ContainerWrite id message]) w.
Proof. intros H. unfold after, d_write, try_except, bind, call. by rewrite H. Qed.

(** In debug mode, an exception of the deletion goes to the debug log. *)
Lemma driver_logs_remove_failure env model audio_data id w text msg :
  attempt_succeeds env audio_data w text -> os_remove env = Fails msg ->
  (forall message, container_write env message = Answers tt) ->
  ContainerWrite id (py "Error deleting temp file: " ++ msg)
  ∈ page (after (process_and_transcribe_buffer env model audio_data true (Some id)) w).
Proof.
  intros (stem & Hs & Hf & Hw & Hc & Ht) Hr Hcw.
  change (wp (process_and_transcribe_buffer env model audio_data true (Some id))
            (fun _ w' => ContainerWrite id (py "Error deleting temp file: " ++ msg) ∈ page w')
            w).
  unfold process_and_transcribe_buffer; cbv zeta; wp_run.
  all: rewrite !d_write_on by done.
  all: cbn [page with_page].
  all: apply elem_of_app; left; apply elem_of_app; right.
  all: by apply list_elem_of_singleton.
Qed.

(** The two ways through the driver, side by side: the transcript that
    is stored and the error boxes that are added. *)
Lemma driver_summary env model audio_data debug_mode debug_log_container w :
  let w' := after (process_and_transcribe_buffer env model audio_data debug_mode
                     debug_log_container) w in
  exists T errs,
    session_state w' !! "transcript" = Some (VStr T) /\
    error_boxes (page w') = error_boxes (page w) ++ errs /\
    ((exists text, attempt_succeeds env audio_data w text /\ T = PyStr.strip text /\ errs = []) \/
     (attempt_fails env audio_data w /\ T = [] /\
      exists msg, errs = [py "Transcription error: " ++ msg])).
Proof.
  intros w'. subst w'.
  destruct (attempt_succeeds_or_fails env audio_data w) as [[text H]|H].
  - destruct (driver_success env model audio_data debug_mode debug_log_container w text H)
      as [Ht Hp].
    exists (PyStr.strip text), []. split; [done|]. split; [|left; eauto].
    rewrite <- error_boxes_shown, Hp, error_boxes_app, error_boxes_shown. done.
  - destruct (driver_failure env model audio_data debug_mode debug_log_container w H)
      as [Ht [msg Hp]].
    exists [], [py "Transcription error: " ++ msg]. split; [done|]. split; [|right; eauto].
    rewrite <- error_boxes_shown, Hp, error_boxes_app, error_boxes_shown. done.
Qed.

(** Whether the [try] block succeeds depends on the world only through
    the temporary directory. *)
Lemma attempt_succeeds_files env audio_data w1 w2 text :
  files w1 = files w2 ->
  attempt_succeeds env audio_data w1 text -> attempt_succeeds env audio_data w2 text.
Proof. unfold attempt_succeeds. intros ->. done. Qed.

Lemma attempt_fails_files env audio_data w1 w2 :
  files w1 = files w2 -> attempt_fails env audio_data w1 -> attempt_fails env audio_data w2.
Proof. unfold attempt_fails. intros ->. done. Qed.

(** * The blocks of the script *)

Lemma wp_eq {S A} (m : M S A) s x : wp m (fun r s' => (r, s') = x) s -> m s = x.
Proof. unfold wp. by rewrite <- run_eq. Qed.

Lemma lookup_setdefault_eq k v (ss : gmap string pyval) :
  setdefault k v ss !! k = Some (default v (ss !! k)).
Proof.
  unfold setdefault. destruct (ss !! k) eqn:E; simpl; [done|]. apply lookup_insert_eq.
Qed.

Lemma lookup_setdefault_ne k j v (ss : gmap string pyval) :
  k <> j -> setdefault k v ss !! j = ss !! j.
Proof. intros. unfold setdefault. destruct (ss !! k); [done|]. by apply lookup_insert_ne. Qed.

(** The first block sets each of the three keys that is missing. *)
Lemma initialize_session_state_run w :
  initialize_session_state w
  = (Returns tt,
     with_session (fun ss => setdefault "transcribed" (VBool false)
                               (setdefault "audio_data" VNone
                                  (setdefault "transcript" (VStr []) ss))) w).
Proof.
  apply wp_eq. unfold initialize_session_state.
  destruct w as [ss c l f t p o n].
  destruct (ss !! "transcript") eqn:E1; destruct (ss !! "audio_data") eqn:E2;
    destruct (ss !! "transcribed") eqn:E3.
  all: wp_run.
  all: unfold with_session, setdefault; cbn [session_state].
  all: repeat (progress map_simpl; cbv beta iota).
  all: done.
Qed.

Lemma initialize_session_state_session w :
  session_state (after initialize_session_state w)
  = setdefault "transcribed" (VBool false)
      (setdefault "audio_data" VNone (setdefault "transcript" (VStr []) (session_state w))).
Proof. unfold after. by rewrite initialize_session_state_run. Qed.

(** The loader: a hit in the table, or one call of the library whose
    result is stored. *)
Lemma load_whisper_model_run env model_size w :
  load_whisper_model env model_size w
  = match cache_resource w !! model_size with
    | Some handle => (Returns handle, w)
    | None =>
        match whisper_load_model env with
        | Answers _ =>
            (Returns (length (loaded w)),
             with_cache (insert model_size (length (loaded w)))
               (with_loaded (fun l => l ++ [(model_size,
                                             if cuda_is_available env then cuda else cpu)]) w))
        | Fails msg => (Raises (PyException msg), w)
        end
    end.
Proof.
  unfold load_whisper_model, st_cache_resource, load_whisper_model_body, load_model.
  unfold bind, gets, call, modify, ret, raise.
  destruct (cache_resource w !! model_size); [done|].
  by destruct (whisper_load_model env).
Qed.

(** ** Statements that only change the session and the page *)

Lemma after_cache_resource {A} (m : M world A) `{!UiOnly m} w :
  cache_resource (after m w) = cache_resource w.
Proof. apply ui_only_after. Qed.

Lemma after_loaded {A} (m : M world A) `{!UiOnly m} w : loaded (after m w) = loaded w.
Proof. apply ui_only_after. Qed.

Lemma after_files {A} (m : M world A) `{!UiOnly m} w : files (after m w) = files w.
Proof. apply ui_only_after. Qed.

Lemma after_transcribe_calls {A} (m : M world A) `{!UiOnly m} w :
  transcribe_calls (after m w) = transcribe_calls w.
Proof. apply ui_only_after. Qed.

Ltac block_run Q :=
  match goal with
  | |- context [after ?m ?w] => change (wp m (Q w) w)
  end;
  cbv beta; wp_run.

Ltac ui_only_leaf := unfold ui_only; world_simpl; done.

#[export] Instance d_write_ui_only env debug_mode debug_log_container message :
  UiOnly (d_write env debug_mode debug_log_container message).
Proof. intros w. unfold ui_only. world_simpl. done. Qed.

#[export] Instance initialize_session_state_ui_only : UiOnly initialize_session_state.
Proof. intros w. unfold after. by rewrite initialize_session_state_run. Qed.

#[export] Instance display_areas_ui_only debug_mode : UiOnly (display_areas debug_mode).
Proof.
  intros w. block_run (fun w (_ : outcome (option nat)) w' => ui_only w w').
  all: unfold display_areas; wp_run; ui_only_leaf.
Qed.

#[export] Instance download_buttons_ui_only : UiOnly download_buttons.
Proof.
  intros w. block_run (fun w (_ : outcome unit) w' => ui_only w w').
  all: unfold download_buttons; wp_run; ui_only_leaf.
Qed.

#[export] Instance repeat_transcription_ui_only : UiOnly repeat_transcription.
Proof.
  intros w. block_run (fun w (_ : outcome unit) w' => ui_only w w').
  all: unfold repeat_transcription; wp_run; ui_only_leaf.
Qed.

#[export] Instance display_transcript_ui_only : UiOnly display_transcript.
Proof.
  intros w. block_run (fun w (_ : outcome unit) w' => ui_only w w').
  all: unfold display_transcript; wp_run; ui_only_leaf.
Qed.

(** ** Statements that keep the session or the error boxes *)

Lemma wp_any {A} (m : M world A) (Q : outcome A -> world -> Prop) w :
  (forall r, Q r (after m w)) -> wp m Q w.
Proof. unfold wp. auto. Qed.

Lemma wp_rewrite {A} (m : M world A) (Q : outcome A -> world -> Prop) w x :
  m w = x -> Q (fst x) (snd x) -> wp m Q w.
Proof. intros <-. done. Qed.

Lemma load_whisper_model_session_state env model_size w :
  session_state (after (load_whisper_model env model_size) w) = session_state w.
Proof.
  unfold after. rewrite load_whisper_model_run.
  destruct (cache_resource w !! model_size); [done|]. by destruct (whisper_load_model env).
Qed.

Lemma load_whisper_model_files env model_size w :
  files (after (load_whisper_model env model_size) w) = files w.
Proof.
  unfold after. rewrite load_whisper_model_run.
  destruct (cache_resource w !! model_size); [done|]. by destruct (whisper_load_model env).
Qed.

Lemma load_whisper_model_transcribe_calls env model_size w :
  transcribe_calls (after (load_whisper_model env model_size) w) = transcribe_calls w.
Proof.
  unfold after. rewrite load_whisper_model_run.
  destruct (cache_resource w !! model_size); [done|]. by destruct (whisper_load_model env).
Qed.

Lemma load_whisper_model_page env model_size w :
  page (after (load_whisper_model env model_size) w) = page w.
Proof.
  unfold after. rewrite load_whisper_model_run.
  destruct (cache_resource w !! model_size); [done|]. by destruct (whisper_load_model env).
Qed.

Lemma load_whisper_model_placeholders env model_size w :
  placeholders (after (load_whisper_model env model_size) w) = placeholders w.
Proof.
  unfold after. rewrite load_whisper_model_run.
  destruct (cache_resource w !! model_size); [done|]. by destruct (whisper_load_model env).
Qed.

#[export] Instance download_buttons_keeps_session : KeepsSession download_buttons.
Proof.
  intros w. block_run (fun w (_ : outcome unit) w' => session_state w' = session_state w).
  all: unfold download_buttons; wp_run; by world_simpl.
Qed.

#[export] Instance display_transcript_keeps_session : KeepsSession display_transcript.
Proof.
  intros w. block_run (fun w (_ : outcome unit) w' => session_state w' = session_state w).
  all: unfold display_transcript; wp_run; by world_simpl.
Qed.

#[export] Instance display_areas_keeps_errors debug_mode : KeepsErrors (display_areas debug_mode).
Proof.
  intros w. block_run (fun w (_ : outcome (option nat)) w' =>
                         error_boxes (page w') = error_boxes (page w)).
  all: unfold display_areas; wp_run; world_simpl; by rewrite ?app_nil_r.
Qed.

#[export] Instance download_buttons_keeps_errors : KeepsErrors download_buttons.
Proof.
  intros w. block_run (fun w (_ : outcome unit) w' =>
                         error_boxes (page w') = error_boxes (page w)).
  all: unfold download_buttons; wp_run; world_simpl; by rewrite ?app_nil_r.
Qed.

#[export] Instance repeat_transcription_keeps_errors : KeepsErrors repeat_transcription.
Proof.
  intros w. block_run (fun w (_ : outcome unit) w' =>
                         error_boxes (page w') = error_boxes (page w)).
  all: unfold repeat_transcription; wp_run; world_simpl; by rewrite ?app_nil_r.
Qed.

#[export] Instance display_transcript_keeps_errors : KeepsErrors display_transcript.
Proof.
  intros w. block_run (fun w (_ : outcome unit) w' =>
                         error_boxes (page w') = error_boxes (page w)).
  all: unfold display_transcript; wp_run; world_simpl; by rewrite ?app_nil_r.
Qed.

(** The display areas are the only keys that [display_areas] writes. *)
Lemma display_areas_lookup debug_mode w k :
  k <> "transcript_display_area" -> k <> "debug_log_placeholder" ->
  session_state (after (display_areas debug_mode) w) !! k = session_state w !! k.
Proof.
  intros H1 H2.
  block_run (fun w (_ : outcome (option nat)) w' => session_state w' !! k = session_state w !! k).
  all: unfold display_areas; wp_run; leaf.
Qed.

Ltac block_simpl ::=
  first
    [ rewrite after_cache_resource by typeclasses eauto
    | rewrite after_loaded by typeclasses eauto
    | rewrite after_files by typeclasses eauto
    | rewrite after_transcribe_calls by typeclasses eauto
    | rewrite session_after by typeclasses eauto
    | rewrite errors_after by typeclasses eauto
    | rewrite driver_cache_resource | rewrite driver_loaded
    | rewrite initialize_session_state_session
    | rewrite load_whisper_model_session_state | rewrite load_whisper_model_files
    | rewrite load_whisper_model_transcribe_calls | rewrite load_whisper_model_page
    | rewrite load_whisper_model_placeholders
    | rewrite display_areas_lookup by done
    | rewrite lookup_setdefault_eq | rewrite lookup_setdefault_ne by done
    | progress cbn [default] ].

(** With placeholders (or nothing) under its two keys, [display_areas]
    returns, and the transcript area is a placeholder afterwards. *)
Lemma display_areas_returns debug_mode w :
  areas_ok w = true ->
  exists c id,
    result (display_areas debug_mode) w = Returns c /\
    session_state (after (display_areas debug_mode) w) !! "transcript_display_area"
    = Some (VPlaceholder id).
Proof.
  unfold areas_ok. intros H.
  destruct (session_state w !! "transcript_display_area") as [[]|] eqn:E1; try done.
  all: destruct (session_state w !! "debug_log_placeholder") as [[]|] eqn:E2; try done.
  all: change (wp (display_areas debug_mode)
                 (fun r w' => exists c id, r = Returns c /\
                    session_state w' !! "transcript_display_area" = Some (VPlaceholder id)) w).
  all: unfold display_areas; wp_run.
  all: do 2 eexists; split; [reflexivity|]; leaf.
Qed.

(** ** The guard of the transcription *)

Section Guard.
Variables (env : environment) (model : nat) (debug_mode : bool).
Variable debug_log_display_area : option nat.

Local Abbreviation guarded recording :=
  (transcribe_pending env model recording debug_mode debug_log_display_area).

Lemma transcribe_pending_none w : guarded None w = (Returns tt, w).
Proof. done. Qed.

(** Already transcribed: nothing is done. *)
Lemma transcribe_pending_done recording w :
  pending w = false -> guarded recording w = (Returns tt, w).
Proof.
  unfold pending. intros H. destruct recording as [audio_data|]; [|done].
  destruct (session_state w !! "transcribed") as [v|] eqn:E; [|done].
  apply negb_false_iff in H.
  apply wp_eq. unfold transcribe_pending. wp_run. done.
Qed.

(** An empty recording is stored, and nothing else is done. *)
Lemma transcribe_pending_empty w v :
  session_state w !! "transcribed" = Some v -> truthy v = false ->
  guarded (Some []) w = (Returns tt, with_session (insert "audio_data" (VBytes [])) w).
Proof.
  intros E H. apply wp_eq. unfold transcribe_pending. wp_run. all: done.
Qed.

(** A recording with content: it is stored, the flag is set, and then
    the driver runs. *)
Lemma transcribe_pending_fires w v audio_data :
  session_state w !! "transcribed" = Some v -> truthy v = false -> audio_data <> [] ->
  guarded (Some audio_data) w
  = process_and_transcribe_buffer env model audio_data debug_mode debug_log_display_area
      (with_session (insert "transcribed" (VBool true))
         (with_session (insert "audio_data" (VBytes audio_data)) w)).
Proof.
  intros E H Hne. unfold transcribe_pending, bind at 1.
  unfold getattr at 1. rewrite E, H. cbn [negb].
  destruct audio_data as [|b rest]; [done|]. reflexivity.
Qed.

End Guard.

(** * The script *)

(** A block whose result does not matter for the property at hand. *)
Ltac skip_block := apply wp_bind, wp_any; intros [?|?]; [|leaf].

Lemma pending_false w :
  pending w = false ->
  exists v, session_state w !! "transcribed" = Some v /\ truthy v = true.
Proof.
  unfold pending. destruct (session_state w !! "transcribed") as [v|]; [|done].
  intros H%negb_false_iff. eauto.
Qed.

(** The flag as the guard of [main] reads it, after the first blocks. *)
Lemma pending_at_guard env ui w :
  pending (after (display_areas (checkbox ui))
             (after (load_whisper_model env (selectbox ui))
                (after initialize_session_state w)))
  = pending w.
Proof.
  unfold pending, after at 3. rewrite initialize_session_state_run. cbn [snd].
  world_simpl. map_simpl. by destruct (session_state w !! "transcribed").
Qed.

(** A run that starts with the flag set does not call the model. *)
Lemma main_keeps_transcribe_calls env ui w :
  pending w = false ->
  transcribe_calls (after (main env ui) w) = transcribe_calls w.
Proof.
  intros H.
  change (wp (main env ui) (fun _ w' => transcribe_calls w' = transcribe_calls w) w).
  unfold main. cbv zeta.
  skip_block. skip_block. skip_block.
  apply wp_bind. eapply wp_rewrite.
  { apply transcribe_pending_done. by rewrite pending_at_guard. }
  cbn [fst snd].
  skip_block.
  apply wp_bind. destruct (button ui).
  - apply wp_any. intros [?|?]; [|leaf]. apply wp_any. intros ?. leaf.
  - wp_step. apply wp_any. intros ?. leaf.
Qed.

Lemma wp_returns {A} (m : M world A) (Q : outcome A -> world -> Prop) w a :
  result m w = Returns a -> Q (Returns a) (after m w) -> wp m Q w.
Proof. unfold wp. by intros ->. Qed.

Lemma load_whisper_model_returns env model_size w :
  whisper_load_model env = Answers tt ->
  exists handle, result (load_whisper_model env model_size) w = Returns handle.
Proof.
  intros H. unfold result. rewrite load_whisper_model_run, H.
  destruct (cache_resource w !! model_size); eauto.
Qed.

Lemma areas_ok_at_display env ui w :
  areas_ok (after (load_whisper_model env (selectbox ui)) (after initialize_session_state w))
  = areas_ok w.
Proof.
  unfold areas_ok, after at 2 4. rewrite initialize_session_state_run. cbn [snd].
  world_simpl. map_simpl. done.
Qed.

Lemma flag_at_guard env ui w :
  pending w = true ->
  exists v,
    session_state (after (display_areas (checkbox ui))
                     (after (load_whisper_model env (selectbox ui))
                        (after initialize_session_state w))) !! "transcribed" = Some v /\
    truthy v = false.
Proof.
  unfold pending, after at 3. rewrite initialize_session_state_run. cbn [snd].
  world_simpl. map_simpl. intros H.
  destruct (session_state w !! "transcribed") as [v|]; simpl; eexists; split; try done.
  by apply negb_true_iff.
Qed.

Lemma truthy_bytes (b : bytes) : b <> [] -> truthy (VBytes b) = true.
Proof. by destruct b. Qed.

(** A run of the script that transcribes: what it leaves, in terms of
    the way the [try] block of the driver went. *)
Lemma main_transcribes env ui w audio_data :
  audio_input ui = Some audio_data -> audio_data <> [] -> pending w = true ->
  whisper_load_model env = Answers tt -> areas_ok w = true -> button ui = false ->
  let w' := after (main env ui) w in
  exists T errs,
    result (main env ui) w = Returns tt /\
    session_state w' !! "transcribed" = Some (VBool true) /\
    session_state w' !! "audio_data" = Some (VBytes audio_data) /\
    session_state w' !! "transcript" = Some (VStr T) /\
    error_boxes (page w') = error_boxes (page w) ++ errs /\
    DownloadButton "transcript.txt" (VStr T) ∈ page w' /\
    ((exists text, attempt_succeeds env audio_data w text /\ T = PyStr.strip text /\ errs = []) \/
     (attempt_fails env audio_data w /\ T = [] /\
      exists msg, errs = [py "Transcription error: " ++ msg])).
Proof.
  intros Ha Hne Hp Hl Hok Hb w'. subst w'.
  change (wp (main env ui) (fun r w' => exists T errs,
    r = Returns tt /\
    session_state w' !! "transcribed" = Some (VBool true) /\
    session_state w' !! "audio_data" = Some (VBytes audio_data) /\
    session_state w' !! "transcript" = Some (VStr T) /\
    error_boxes (page w') = error_boxes (page w) ++ errs /\
    DownloadButton "transcript.txt" (VStr T) ∈ page w' /\
    ((exists text, attempt_succeeds env audio_data w text /\ T = PyStr.strip text /\ errs = []) \/
     (attempt_fails env audio_data w /\ T = [] /\
      exists msg, errs = [py "Transcription error: " ++ msg]))) w).
  unfold main. cbv zeta. rewrite Ha, Hb.
  apply wp_bind. eapply wp_returns; [unfold result; by rewrite initialize_session_state_run|].
  destruct (load_whisper_model_returns env (selectbox ui) (after initialize_session_state w) Hl)
    as [model Hmodel].
  apply wp_bind. eapply wp_returns; [exact Hmodel|].
  destruct (display_areas_returns (checkbox ui)
              (after (load_whisper_model env (selectbox ui)) (after initialize_session_state w)))
    as (dla & id & Hdla & Harea); [by rewrite areas_ok_at_display|].
  apply wp_bind. eapply wp_returns; [exact Hdla|].
  destruct (flag_at_guard env ui w Hp) as (v & Hv & Hfalse).
  apply wp_bind. eapply wp_rewrite; [by eapply transcribe_pending_fires|].
  set (w3 := after (display_areas (checkbox ui)) _) in *.
  set (w4 := with_session (insert "transcribed" (VBool true)) _).
  set (drv := process_and_transcribe_buffer env model audio_data (checkbox ui) dla).
  change (fst (drv w4)) with (result drv w4). change (snd (drv w4)) with (after drv w4).
  assert (files w4 = files w) as Hfiles.
  { subst w4 w3. unfold after at 3. rewrite initialize_session_state_run. by world_simpl. }
  assert (error_boxes (page w4) = error_boxes (page w)) as Hboxes.
  { subst w4 w3. unfold after at 3. rewrite initialize_session_state_run. by world_simpl. }
  destruct (driver_summary env model audio_data (checkbox ui) dla w4)
    as (T & errs & HT & Herr & Hcase).
  pose proof (driver_session_frame env model audio_data (checkbox ui) dla w4 "transcribed")
    as Hflag.
  pose proof (driver_session_frame env model audio_data (checkbox ui) dla w4 "audio_data")
    as Haudio.
  pose proof (driver_display_area env model audio_data (checkbox ui) dla w4) as Hdisplay.
  pose proof (driver_returns env model audio_data (checkbox ui) dla w4) as Hret.
  fold drv in HT, Herr, Hflag, Haudio, Hdisplay, Hret.
  rewrite Hret. clear Hret.
  rewrite Hboxes in Herr.
  generalize dependent (after drv w4). intros w5 HT Herr Hflag Haudio Hdisplay.
  subst w4. cbn [session_state with_session] in Hflag, Haudio.
  rewrite lookup_insert_eq in Hflag by done.
  rewrite lookup_insert_ne, lookup_insert_eq in Haudio by done.
  specialize (Hflag ltac:(done) ltac:(done)). specialize (Haudio ltac:(done) ltac:(done)).
  pose proof (truthy_bytes audio_data Hne) as Htruthy.
  unfold download_buttons, display_transcript. wp_run.
  all: exists T, errs; repeat split; try leaf.
  all: try (rewrite Herr; by rewrite ?app_nil_r).
  all: try (rewrite !elem_of_app, !list_elem_of_singleton; by auto).
  all: destruct Hcase as [(text & Hs & -> & ->)|(Hf & -> & msg & ->)];
    [left; exists text; split; [|done]; by eapply attempt_succeeds_files
    |right; split; [by eapply attempt_fails_files|eauto]].
Qed.

(** * Trimming *)

Lemma lstrip_split s :
  exists a, s = a ++ PyStr.lstrip s /\ forallb PyStr.is_whitespace a = true.
Proof.
  induction s as [|ch rest [a [Ha Hws]]]; [by exists []|].
  simpl. destruct (PyStr.is_whitespace ch) eqn:E.
  - exists (ch :: a). simpl. rewrite E, Hws. split; [by f_equal|done].
  - by exists [].
Qed.

Lemma lstrip_head s ch rest : PyStr.lstrip s = ch :: rest -> PyStr.is_whitespace ch = false.
Proof.
  induction s as [|x s IH]; [done|]. simpl.
  destruct (PyStr.is_whitespace x) eqn:E; [done|]. congruence.
Qed.

Lemma lstrip_fixed ch rest :
  PyStr.is_whitespace ch = false -> PyStr.lstrip (ch :: rest) = ch :: rest.
Proof. simpl. by intros ->. Qed.

Lemma lstrip_idempotent s : PyStr.lstrip (PyStr.lstrip s) = PyStr.lstrip s.
Proof.
  destruct (PyStr.lstrip s) as [|ch rest] eqn:E; [done|].
  apply lstrip_fixed. by eapply lstrip_head.
Qed.

Lemma lstrip_whitespace s : forallb PyStr.is_whitespace s = true -> PyStr.lstrip s = [].
Proof.
  induction s as [|ch rest IH]; [done|]. simpl.
  intros [-> H]%andb_true_iff. auto.
Qed.

Lemma lstrip_snoc s ch :
  PyStr.is_whitespace ch = false -> PyStr.lstrip (s ++ [ch]) = PyStr.lstrip s ++ [ch].
Proof.
  intros H. induction s as [|x s IH]; simpl; [by rewrite H|].
  by destruct (PyStr.is_whitespace x).
Qed.

Lemma rstrip_cons ch rest :
  PyStr.is_whitespace ch = false -> PyStr.rstrip (ch :: rest) = ch :: PyStr.rstrip rest.
Proof.
  intros H. unfold PyStr.rstrip. simpl. rewrite lstrip_snoc by done.
  by rewrite rev_app_distr.
Qed.

Lemma rstrip_idempotent s : PyStr.rstrip (PyStr.rstrip s) = PyStr.rstrip s.
Proof. unfold PyStr.rstrip. by rewrite rev_involutive, lstrip_idempotent. Qed.

Lemma forallb_rev_true {A} (p : A -> bool) (l : list A) :
  forallb p l = true -> forallb p (rev l) = true.
Proof.
  rewrite !forallb_forall. intros H x Hx. apply H. by apply in_rev.
Qed.

Lemma rstrip_split s :
  exists b, s = PyStr.rstrip s ++ b /\ forallb PyStr.is_whitespace b = true.
Proof.
  destruct (lstrip_split (rev s)) as [a [Ha Hws]].
  exists (rev a). split.
  - unfold PyStr.rstrip. rewrite <- rev_app_distr, <- Ha. by rewrite rev_involutive.
  - by apply forallb_rev_true.
Qed.

Lemma rstrip_last s init ch :
  PyStr.rstrip s = init ++ [ch] -> PyStr.is_whitespace ch = false.
Proof.
  unfold PyStr.rstrip. intros H.
  apply (f_equal (@rev N)) in H. rewrite rev_involutive, rev_app_distr in H. simpl in H.
  by eapply lstrip_head.
Qed.

(** [strip] is a projection: trimming a trimmed string changes nothing. *)
Lemma strip_idempotent s : PyStr.strip (PyStr.strip s) = PyStr.strip s.
Proof.
  unfold PyStr.strip.
  destruct (PyStr.lstrip s) as [|ch rest] eqn:E; [done|].
  pose proof (lstrip_head _ _ _ E) as Hch.
  rewrite rstrip_cons by done. rewrite lstrip_fixed by done.
  rewrite rstrip_cons by done. by rewrite rstrip_idempotent.
Qed.

Lemma strip_whitespace s : forallb PyStr.is_whitespace s = true -> PyStr.strip s = [].
Proof. intros H. unfold PyStr.strip. by rewrite lstrip_whitespace. Qed.

(** What was cut off at both ends is whitespace. *)
Lemma strip_split s :
  exists a b, s = a ++ PyStr.strip s ++ b /\
              forallb PyStr.is_whitespace a = true /\ forallb PyStr.is_whitespace b = true.
Proof.
  destruct (lstrip_split s) as [a [Ha Hwa]].
  destruct (rstrip_split (PyStr.lstrip s)) as [b [Hb Hwb]].
  exists a, b. unfold PyStr.strip. by rewrite <- Hb.
Qed.

(** A trimmed string neither starts nor ends with whitespace. *)
Lemma strip_head s ch rest : PyStr.strip s = ch :: rest -> PyStr.is_whitespace ch = false.
Proof.
  unfold PyStr.strip. destruct (PyStr.lstrip s) as [|x xs] eqn:E; [done|].
  pose proof (lstrip_head _ _ _ E) as Hx. rewrite rstrip_cons by done. congruence.
Qed.

Lemma strip_last s init ch : PyStr.strip s = init ++ [ch] -> PyStr.is_whitespace ch = false.
Proof. apply rstrip_last. Qed.

(** * The resource cache during the life of a process *)

Lemma count_loads_snoc model_size other d w f :
  count_loads model_size (with_cache f (with_loaded (fun l => l ++ [(other, d)]) w))
  = count_loads model_size w + (if String.eqb other model_size then 1 else 0).
Proof.
  unfold count_loads. cbn [loaded with_cache with_loaded].
  rewrite List.filter_app, length_app. simpl. by destruct (String.eqb other model_size).
Qed.

Lemma load_whisper_model_consistent env model_size w :
  cache_consistent w -> cache_consistent (after (load_whisper_model env model_size) w).
Proof.
  intros H s. unfold after. rewrite load_whisper_model_run.
  destruct (cache_resource w !! model_size) eqn:E; [apply H|].
  destruct (whisper_load_model env); [|apply H]. cbn [snd].
  rewrite count_loads_snoc. cbn [cache_resource with_cache with_loaded]. rewrite H.
  destruct (String.eqb_spec model_size s) as [->|Hne].
  - by rewrite E, lookup_insert_eq.
  - rewrite lookup_insert_ne by done. destruct (cache_resource w !! s); lia.
Qed.

Lemma load_whisper_model_persists env model_size w s handle :
  cache_resource w !! s = Some handle ->
  cache_resource (after (load_whisper_model env model_size) w) !! s = Some handle.
Proof.
  intros H. unfold after. rewrite load_whisper_model_run.
  destruct (cache_resource w !! model_size) eqn:E; [done|].
  destruct (whisper_load_model env); [|done]. cbn [snd cache_resource with_cache with_loaded].
  rewrite lookup_insert_ne; [done|]. congruence.
Qed.

(** What a returned handle is: the entry of the table after the call. *)
Lemma load_whisper_model_cached env model_size w handle :
  result (load_whisper_model env model_size) w = Returns handle ->
  cache_resource (after (load_whisper_model env model_size) w) !! model_size = Some handle.
Proof.
  unfold result, after. rewrite load_whisper_model_run.
  destruct (cache_resource w !! model_size) eqn:E; [by intros [= <-]|].
  destruct (whisper_load_model env); [|done]. cbn [fst snd]. intros [= <-].
  cbn [cache_resource with_cache]. apply lookup_insert_eq.
Qed.

Lemma load_whisper_model_hit env model_size w handle :
  cache_resource w !! model_size = Some handle ->
  load_whisper_model env model_size w = (Returns handle, w).
Proof. intros H. by rewrite load_whisper_model_run, H. Qed.

Lemma load_whisper_model_after_init env model_size w :
  cache_resource (after (load_whisper_model env model_size) (after initialize_session_state w))
  = cache_resource (after (load_whisper_model env model_size) w) /\
  loaded (after (load_whisper_model env model_size) (after initialize_session_state w))
  = loaded (after (load_whisper_model env model_size) w).
Proof.
  unfold after. rewrite !load_whisper_model_run, initialize_session_state_run.
  cbn [snd cache_resource loaded with_session].
  destruct (cache_resource w !! model_size); [done|]. by destruct (whisper_load_model env).
Qed.

Lemma transcribe_pending_cache env model recording debug_mode dla w :
  cache_resource (after (transcribe_pending env model recording debug_mode dla) w)
  = cache_resource w /\
  loaded (after (transcribe_pending env model recording debug_mode dla) w) = loaded w.
Proof.
  block_run (fun w (_ : outcome unit) w' =>
               cache_resource w' = cache_resource w /\ loaded w' = loaded w).
  unfold transcribe_pending. wp_run.
  all: try (apply wp_any; intros ?).
  all: split; by world_simpl.
Qed.

(** A run of the script changes the resource cache as its call of the
    loader does, and in no other way. *)
Lemma main_cache env ui w :
  cache_resource (after (main env ui) w)
  = cache_resource (after (load_whisper_model env (selectbox ui)) w) /\
  loaded (after (main env ui) w) = loaded (after (load_whisper_model env (selectbox ui)) w).
Proof.
  destruct (load_whisper_model_after_init env (selectbox ui) w) as [Hc Hl].
  block_run (fun w (_ : outcome unit) w' =>
    cache_resource w' = cache_resource (after (load_whisper_model env (selectbox ui)) w) /\
    loaded w' = loaded (after (load_whisper_model env (selectbox ui)) w)).
  unfold main. cbv zeta.
  apply wp_bind. eapply wp_returns; [unfold result; by rewrite initialize_session_state_run|].
  apply wp_bind, wp_any. intros [model|e]; [|done].
  apply wp_bind, wp_any. intros [dla|e]; [|split; world_simpl; done].
  apply wp_bind, wp_any.
  destruct (transcribe_pending_cache env model (audio_input ui) (checkbox ui) dla
              (after (display_areas (checkbox ui))
                 (after (load_whisper_model env (selectbox ui))
                    (after initialize_session_state w)))) as [Hc' Hl'].
  intros [[]|e]; [|split; [rewrite Hc'|rewrite Hl']; world_simpl; done].
  apply wp_bind, wp_any.
  intros [[]|e]; [|split; world_simpl; [rewrite Hc'|rewrite Hl']; world_simpl; done].
  apply wp_bind. destruct (button ui).
  - apply wp_any. intros [[]|e].
    + apply wp_any. intros ?. split; world_simpl; [rewrite Hc'|rewrite Hl']; world_simpl; done.
    + split; world_simpl; [rewrite Hc'|rewrite Hl']; world_simpl; done.
  - wp_step. apply wp_any. intros ?.
    split; world_simpl; [rewrite Hc'|rewrite Hl']; world_simpl; done.
Qed.

Lemma happen_consistent w e : cache_consistent w -> cache_consistent (happen w e).
Proof.
  destruct e as [env ui|env model_size]; simpl; [|apply load_whisper_model_consistent].
  intros H s. destruct (main_cache env ui w) as [Hc Hl].
  unfold count_loads. rewrite Hc, Hl.
  apply (load_whisper_model_consistent env (selectbox ui) w H).
Qed.

Lemma happen_persists w e s handle :
  cache_resource w !! s = Some handle -> cache_resource (happen w e) !! s = Some handle.
Proof.
  destruct e as [env ui|env model_size]; simpl; [|apply load_whisper_model_persists].
  intros H. rewrite (proj1 (main_cache env ui w)). by apply load_whisper_model_persists.
Qed.

Lemma lifetime_consistent events w :
  cache_consistent w -> cache_consistent (lifetime events w).
Proof.
  revert w. induction events as [|e events IH]; intros w H; [done|].
  simpl. apply IH. by apply happen_consistent.
Qed.

Lemma lifetime_persists events w s handle :
  cache_resource w !! s = Some handle ->
  cache_resource (lifetime events w) !! s = Some handle.
Proof.
  revert w. induction events as [|e events IH]; intros w H; [done|].
  simpl. apply IH. by apply happen_persists.
Qed.

Lemma fresh_world_consistent : cache_consistent fresh_world.
Proof. intros s. done. Qed.

Lemma consistent_at_most_once w s : cache_consistent w -> count_loads s w <= 1.
Proof. intros H. rewrite H. destruct (cache_resource w !! s); lia. Qed.

(** * The reset button *)

Lemma repeat_transcription_clears w :
  session_state (after repeat_transcription w) !! "transcript" = Some (VStr []) /\
  session_state (after repeat_transcription w) !! "audio_data" = Some VNone /\
  session_state (after repeat_transcription w) !! "transcribed" = Some (VBool false).
Proof.
  block_run (fun (w : world) (_ : outcome unit) w' =>
    session_state w' !! "transcript" = Some (VStr []) /\
    session_state w' !! "audio_data" = Some VNone /\
    session_state w' !! "transcribed" = Some (VBool false)).
  unfold repeat_transcription. wp_run.
  all: repeat split; leaf.
Qed.

Lemma repeat_transcription_reruns w id :
  session_state w !! "transcript_display_area" = Some (VPlaceholder id) ->
  result repeat_transcription w = Raises RerunException.
Proof.
  intros H.
  change (wp repeat_transcription (fun r _ => r = Raises RerunException) w).
  unfold repeat_transcription. wp_run. done.
Qed.

(** * A run of the script on an empty recording *)

Lemma pending_default w :
  pending w = true ->
  truthy (default (VBool false) (session_state w !! "transcribed")) = false.
Proof.
  unfold pending. destruct (session_state w !! "transcribed") as [v|]; [|done].
  simpl. by intros H%negb_true_iff.
Qed.

Lemma main_empty_recording env ui w :
  audio_input ui = Some [] -> pending w = true ->
  transcribe_calls (after (main env ui) w) = transcribe_calls w /\
  exists v, session_state (after (main env ui) w) !! "transcribed" = Some v /\
            truthy v = false.
Proof.
  intros Ha Hp. pose proof (pending_default w Hp) as Hfalse.
  set (v := default (VBool false) (session_state w !! "transcribed")) in *.
  block_run (fun w (_ : outcome unit) w' =>
    transcribe_calls w' = transcribe_calls w /\
    exists v, session_state w' !! "transcribed" = Some v /\ truthy v = false).
  unfold main. cbv zeta. rewrite Ha.
  apply wp_bind, wp_any. intros [[]|e]; [|split; [leaf|exists v; split; [leaf|done]]].
  apply wp_bind, wp_any. intros [model|e]; [|split; [leaf|exists v; split; [leaf|done]]].
  apply wp_bind, wp_any. intros [dla|e]; [|split; [leaf|exists v; split; [leaf|done]]].
  apply wp_bind. eapply wp_rewrite.
  { eapply (transcribe_pending_empty _ _ _ _ _ v); [leaf|exact Hfalse]. }
  cbn [fst snd].
  apply wp_bind, wp_any. intros [[]|e]; [|split; [leaf|exists v; split; [leaf|done]]].
  apply wp_bind. destruct (button ui).
  - apply wp_any.
    match goal with |- context [after repeat_transcription ?w0] =>
      destruct (repeat_transcription_clears w0) as (_ & _ & Hclear) end.
    intros [[]|e].
    + apply wp_any. intros ?. split; [leaf|]. exists (VBool false). split; [|done].
      rewrite session_after by typeclasses eauto. exact Hclear.
    + split; [leaf|]. by exists (VBool false).
  - wp_step. apply wp_any. intros ?. split; [leaf|exists v; split; [leaf|done]].
Qed.

Lemma main_stores_empty_recording env ui w :
  audio_input ui = Some [] -> pending w = true ->
  whisper_load_model env = Answers tt -> areas_ok w = true -> button ui = false ->
  session_state (after (main env ui) w) !! "audio_data" = Some (VBytes []).
Proof.
  intros Ha Hp Hl Hok Hb.
  block_run (fun (w : world) (_ : outcome unit) w' =>
    session_state w' !! "audio_data" = Some (VBytes [])).
  unfold main. cbv zeta. rewrite Ha, Hb.
  apply wp_bind. eapply wp_returns; [unfold result; by rewrite initialize_session_state_run|].
  destruct (load_whisper_model_returns env (selectbox ui) (after initialize_session_state w) Hl)
    as [model Hmodel].
  apply wp_bind. eapply wp_returns; [exact Hmodel|].
  destruct (display_areas_returns (checkbox ui)
              (after (load_whisper_model env (selectbox ui)) (after initialize_session_state w)))
    as (dla & id & Hdla & Harea); [by rewrite areas_ok_at_display|].
  apply wp_bind. eapply wp_returns; [exact Hdla|].
  destruct (flag_at_guard env ui w Hp) as (v & Hv & Hfalse).
  apply wp_bind. eapply wp_rewrite; [by eapply transcribe_pending_empty|].
  cbn [fst snd].
  apply wp_bind, wp_any. intros [[]|e]; [|leaf].
  wp_run. apply wp_any. intros ?. leaf.
Qed.

(** * Reruns *)

(** Without the reset button, a run that starts with the flag set leaves
    the flag as it is. *)
Lemma main_keeps_flag env ui w :
  pending w = false -> button ui = false ->
  session_state (after (main env ui) w) !! "transcribed" = session_state w !! "transcribed".
Proof.
  intros H Hb. destruct (pending_false w H) as (v & Hv & Htrue).
  block_run (fun w (_ : outcome unit) w' =>
    session_state w' !! "transcribed" = session_state w !! "transcribed").
  unfold main. cbv zeta. rewrite Hb.
  skip_block. skip_block. skip_block.
  apply wp_bind. eapply wp_rewrite.
  { apply transcribe_pending_done. by rewrite pending_at_guard. }
  cbn [fst snd].
  skip_block. wp_step. wp_step. apply wp_any. intros ?. leaf.
Qed.

Lemma lifetime_no_reset events w :
  pending w = false -> forallb no_reset events = true ->
  transcribe_calls (lifetime events w) = transcribe_calls w /\
  pending (lifetime events w) = false.
Proof.
  revert w. induction events as [|e events IH]; intros w Hp Hall; [done|].
  simpl in Hall. apply andb_true_iff in Hall as [He Hall]. simpl.
  destruct e as [env ui|env model_size]; simpl in *.
  - apply negb_true_iff in He.
    destruct (IH (after (main env ui) w)) as [Hc Hp']; [|done|].
    + unfold pending. rewrite main_keeps_flag by done. exact Hp.
    + split; [|done]. rewrite Hc. by apply main_keeps_transcribe_calls.
  - destruct (IH (after (load_whisper_model env model_size) w)) as [Hc Hp']; [|done|].
    + unfold pending. by rewrite load_whisper_model_session_state.
    + split; [|done]. by rewrite Hc, load_whisper_model_transcribe_calls.
Qed.

(** * A run of the script with the reset button pressed *)

Lemma bind_returns {S A B} (m : M S A) (k : A -> M S B) s a :
  result m s = Returns a -> bind m k s = k a (after m s).
Proof. unfold result, after, bind. destruct (m s) as [r s']. simpl. by intros ->. Qed.

Lemma bind_raises {S A B} (m : M S A) (k : A -> M S B) s e :
  result m s = Raises e -> bind m k s = (Raises e, after m s).
Proof. unfold result, after, bind. destruct (m s) as [r s']. simpl. by intros ->. Qed.

(** Up to the guard of the transcription the script returns, whenever
    the model can be loaded. *)
Lemma main_prefix env ui w :
  whisper_load_model env = Answers tt -> areas_ok w = true ->
  exists model dla w3,
    main env ui w
    = (transcribe_pending env model (audio_input ui) (checkbox ui) dla ;;;
       download_buttons ;;;
       (if button ui then repeat_transcription else ret tt) ;;;
       display_transcript) w3 /\
    session_ready w3.
Proof.
  intros Hl Hok. unfold main. cbv zeta.
  erewrite bind_returns by (unfold result; by rewrite initialize_session_state_run).
  destruct (load_whisper_model_returns env (selectbox ui) (after initialize_session_state w) Hl)
    as [model Hmodel].
  erewrite bind_returns by exact Hmodel.
  destruct (display_areas_returns (checkbox ui)
              (after (load_whisper_model env (selectbox ui)) (after initialize_session_state w)))
    as (dla & id & Hdla & Harea); [by rewrite areas_ok_at_display|].
  erewrite bind_returns by exact Hdla.
  eexists model, dla, _. split; [reflexivity|].
  unfold session_ready. repeat split; [| | |by exists id].
  all: eexists; leaf.
Qed.

Lemma transcribe_pending_ready env model recording debug_mode dla w :
  session_ready w ->
  result (transcribe_pending env model recording debug_mode dla) w = Returns tt /\
  session_ready (after (transcribe_pending env model recording debug_mode dla) w).
Proof.
  intros ([t Ht] & [a Ha] & [v Hv] & [id Hid]).
  change (wp (transcribe_pending env model recording debug_mode dla)
            (fun r w' => r = Returns tt /\ session_ready w') w).
  unfold transcribe_pending. wp_run.
  1: eapply wp_returns; [apply driver_returns|].
  1: match goal with |- context [after ?d ?w0] =>
       pose proof (driver_frame env model l debug_mode dla w0) as (_ & _ & _ & _ & Harea & Hk);
       destruct (driver_summary env model l debug_mode dla w0) as (T & errs & HT & _)
     end.
  1: { split; [done|]. unfold session_ready.
       rewrite HT, Harea, !Hk by done. repeat split; eauto; eexists; leaf. }
  all: split; [done|]; unfold session_ready; repeat split; eauto; eexists; leaf.
Qed.

Lemma download_buttons_returns w :
  session_ready w -> result download_buttons w = Returns tt.
Proof.
  intros ([t Ht] & [a Ha] & [v Hv] & _).
  change (wp download_buttons (fun r _ => r = Returns tt) w).
  unfold download_buttons. wp_run. all: done.
Qed.

Lemma main_reset env ui w :
  button ui = true -> whisper_load_model env = Answers tt -> areas_ok w = true ->
  result (main env ui) w = Raises RerunException /\
  session_state (after (main env ui) w) !! "transcript" = Some (VStr []) /\
  session_state (after (main env ui) w) !! "audio_data" = Some VNone /\
  session_state (after (main env ui) w) !! "transcribed" = Some (VBool false).
Proof.
  intros Hb Hl Hok.
  destruct (main_prefix env ui w Hl Hok) as (model & dla & w3 & Hmain & Hready).
  unfold result, after. rewrite Hmain, Hb.
  destruct (transcribe_pending_ready env model (audio_input ui) (checkbox ui) dla w3 Hready)
    as [Hr Hready'].
  erewrite bind_returns by exact Hr.
  erewrite bind_returns by (by apply download_buttons_returns).
  match goal with |- context [bind repeat_transcription _ ?w0] =>
    assert (result repeat_transcription w0 = Raises RerunException) as Hrerun;
    [|pose proof (repeat_transcription_clears w0) as Hclear]
  end.
  { destruct Hready' as (_ & _ & _ & [id Hid]).
    eapply repeat_transcription_reruns. rewrite session_after by typeclasses eauto. exact Hid. }
  erewrite bind_raises by exact Hrerun. cbn [fst snd].
  split; [reflexivity|exact Hclear].
Qed.

(** * The session between the runs *)

Lemma after_bind {A B} (m : M world A) (k : A -> M world B) w :
  after (bind m k) w
  = match result m w with
    | Returns a => after (k a) (after m w)
    | Raises _ => after m w
    end.
Proof. unfold after, result, bind. by destruct (m w) as [[a|e] w']. Qed.

#[export] Instance preserves_bind I {A B} (m : M world A) (k : A -> M world B) :
  Preserves I m -> (forall a, Preserves I (k a)) -> Preserves I (bind m k).
Proof.
  intros Hm Hk w H. rewrite after_bind. destruct (result m w); [apply Hk|]; by apply Hm.
Qed.

#[export] Instance preserves_ret I {A} (a : A) : Preserves I (ret a).
Proof. by intros w H. Qed.

(** [session_ok] reads four keys of the session. *)
Lemma session_ok_ext w w' :
  (forall k, k = "transcript_display_area" \/ k = "debug_log_placeholder" \/
             k = "transcribed" \/ k = "transcript" ->
             session_state w' !! k = session_state w !! k) ->
  session_ok w' = session_ok w.
Proof.
  intros H. unfold session_ok, areas_ok, pending, transcript_blank.
  rewrite !H by auto. done.
Qed.

#[export] Instance keeps_session_preserves {A} (m : M world A) :
  KeepsSession m -> Preserves (fun w => session_ok w = true) m.
Proof.
  intros Hm w H. rewrite <- H. apply session_ok_ext. intros k _. by rewrite session_after.
Qed.

#[export] Instance initialize_session_state_preserves :
  Preserves (fun w => session_ok w = true) initialize_session_state.
Proof.
  intros w. unfold session_ok, areas_ok, pending, transcript_blank.
  rewrite initialize_session_state_session.
  repeat first [rewrite lookup_setdefault_eq | rewrite lookup_setdefault_ne by done].
  destruct (session_state w !! "transcribed"), (session_state w !! "transcript"); done.
Qed.

#[export] Instance load_whisper_model_preserves env model_size :
  Preserves (fun w => session_ok w = true) (load_whisper_model env model_size).
Proof.
  intros w H. rewrite <- H. apply session_ok_ext. intros k _.
  by rewrite load_whisper_model_session_state.
Qed.

#[export] Instance display_areas_preserves debug_mode :
  Preserves (fun w => session_ok w = true) (display_areas debug_mode).
Proof.
  intros w. unfold session_ok, areas_ok, pending, transcript_blank.
  rewrite (display_areas_lookup debug_mode w "transcribed") by done.
  rewrite (display_areas_lookup debug_mode w "transcript") by done.
  intros [[H1 H2]%andb_true_iff ->]%andb_true_iff. rewrite andb_true_r.
  destruct (session_state w !! "transcript_display_area") as [[]|] eqn:E1; try done.
  all: destruct (session_state w !! "debug_log_placeholder") as [[]|] eqn:E2; try done.
  all: change (wp (display_areas debug_mode)
                 (fun _ w' =>
                    placeholder_or_absent (session_state w' !! "transcript_display_area")
                    && placeholder_or_absent (session_state w' !! "debug_log_placeholder")
                    = true) w).
  all: unfold display_areas; wp_run; leaf.
Qed.

#[export] Instance transcribe_pending_preserves env model recording debug_mode dla :
  Preserves (fun w => session_ok w = true)
    (transcribe_pending env model recording debug_mode dla).
Proof.
  intros w H.
  change (wp (transcribe_pending env model recording debug_mode dla)
            (fun _ w' => session_ok w' = true) w).
  unfold transcribe_pending. wp_run.
  - apply wp_any. intros _.
    match goal with |- context [after ?d ?w0] =>
      pose proof (driver_frame env model l debug_mode dla w0) as (_ & _ & _ & _ & Harea & Hk)
    end.
    unfold session_ok, areas_ok, pending in *.
    rewrite Harea, (Hk "debug_log_placeholder"), (Hk "transcribed") by done.
    cbn [session_state with_session]. map_simpl.
    apply andb_true_iff in H as [H _]. apply andb_true_iff in H as [_ H]. by rewrite H.
  - rewrite <- H. apply session_ok_ext. intros k Hk. cbn [session_state with_session].
    rewrite lookup_insert_ne; [done|]. by destruct Hk as [->|[->|[->| ->]]].
  - done.
  - done.
  - done.
Qed.

#[export] Instance repeat_transcription_preserves :
  Preserves (fun w => session_ok w = true) repeat_transcription.
Proof.
  intros w H.
  change (wp repeat_transcription (fun _ w' => session_ok w' = true) w).
  unfold repeat_transcription. wp_run.
  all: unfold session_ok, areas_ok, pending, transcript_blank in *; leaf.
  all: match goal with
       | E : session_state _ !! "transcript_display_area" = _ |- _ => rewrite E in H
       end.
  all: apply andb_true_iff in H as [H _]; by rewrite H.
Qed.

(** A run of the script keeps the invariant of the session. *)
#[export] Instance main_preserves env ui :
  Preserves (fun w => session_ok w = true) (main env ui).
Proof.
  unfold main. cbv zeta.
  apply preserves_bind; [apply _|intros []].
  apply preserves_bind; [apply _|intros model].
  apply preserves_bind; [apply _|intros dla].
  apply preserves_bind; [apply _|intros []].
  apply preserves_bind; [apply _|intros []].
  apply preserves_bind; [destruct (button ui); apply _|intros []].
  apply _.
Qed.

Lemma lifetime_session_ok events w :
  session_ok w = true -> session_ok (lifetime events w) = true.
Proof.
  revert w. induction events as [|e events IH]; intros w H; [done|].
  simpl. apply IH. destruct e as [env ui|env model_size]; simpl.
  - by apply main_preserves.
  - by apply load_whisper_model_preserves.
Qed.

(** In the life of a process that starts with a fresh session, the
    display areas are placeholders whenever the script runs, and the
    driver is only ever started on a session without a transcript. *)
Lemma lifetime_from_fresh events :
  let w := lifetime events fresh_world in
  areas_ok w = true /\ (pending w = true -> transcript_blank w = true).
Proof.
  intros w. pose proof (lifetime_session_ok events fresh_world eq_refl) as H.
  fold w in H. unfold session_ok in H.
  apply andb_true_iff in H as [Ha Hb]. split; [done|].
  intros Hp. by rewrite Hp in Hb.
Qed.

(** * The properties of the specification *)

Section DriverClaims.
Variables (env : environment) (model : nat) (audio_data : bytes).
Variables (debug_mode : bool) (debug_log_container : option nat).

Local Abbreviation driver :=
  (process_and_transcribe_buffer env model audio_data debug_mode debug_log_container).

(** C1, as amended: when the [try] block of the driver fails (creating,
    writing or closing the temporary file, or the model's transcribe
    call, raises), the driver returns with the transcript equal to the
    empty string that it stored on entry, whatever the transcript was
    before; [audio_data] and [transcribed] are as before the call, and
    one error box with the message of the exception is shown. *)
Theorem failed_transcription_clears_transcript w :
  attempt_fails env audio_data w ->
  result driver w = Returns tt /\
  session_state (after driver w) !! "transcript" = Some (VStr []) /\
  session_state (after driver w) !! "audio_data" = session_state w !! "audio_data" /\
  session_state (after driver w) !! "transcribed" = session_state w !! "transcribed" /\
  exists msg,
    error_boxes (page (after driver w))
    = error_boxes (page w) ++ [py "Transcription error: " ++ msg].
Proof.
  intros H.
  destruct (driver_failure env model audio_data debug_mode debug_log_container w H)
    as [Ht [msg Hp]].
  split; [apply driver_returns|]. split; [exact Ht|].
  split; [by apply driver_session_frame|]. split; [by apply driver_session_frame|].
  exists msg. rewrite <- error_boxes_shown, Hp, error_boxes_app, error_boxes_shown. done.
Qed.

(** C2, as amended: once the buffer has been written to the temporary
    file, the file is gone when the driver returns, on every way out
    (transcript stored, empty text, closing the file or the model's call
    raising), provided that the deletion itself goes through; the
    temporary directory is then as it was before the call. *)
Theorem temp_file_removed w stem :
  mkstemp env = Answers stem -> files w !! (stem +:+ ".wav") = None ->
  file_write env = Answers tt -> os_remove env = Answers tt ->
  files (after driver w) !! (stem +:+ ".wav") = None /\
  files (after driver w) = files w.
Proof.
  intros Hs Hf Hw Hr.
  rewrite (driver_files env model audio_data debug_mode debug_log_container w stem) by done.
  done.
Qed.

(** C3, as amended: whatever the file system, the model and the debug
    container answer (a value, or a failure that is an instance of
    [Exception]), the driver returns.  An exception of creating, writing
    or closing the temporary file or of the model's call is caught and
    shown in an error box; when none is raised, no error box is added.
    An exception of the deletion in the [finally] block is caught as
    well, but it is not shown to the user: the page, the debug log
    apart, is as without it, and in debug mode the message is written
    to the debug log. *)
Theorem driver_catches_exceptions w :
  result driver w = Returns tt /\
  ((exists text, attempt_succeeds env audio_data w text /\
                 error_boxes (page (after driver w)) = error_boxes (page w)) \/
   (attempt_fails env audio_data w /\
    exists msg, error_boxes (page (after driver w))
                = error_boxes (page w) ++ [py "Transcription error: " ++ msg])) /\
  (forall text msg,
     attempt_succeeds env audio_data w text -> os_remove env = Fails msg ->
     shown (page (after driver w))
     = shown (page w) ++ [NewPlaceholder (placeholders w); Spinner (py "Transcribing...")] /\
     forall id,
       (forall message, container_write env message = Answers tt) ->
       ContainerWrite id (py "Error deleting temp file: " ++ msg)
       ∈ page (after (process_and_transcribe_buffer env model audio_data true (Some id)) w)).
Proof.
  split; [apply driver_returns|]. split.
  - destruct (driver_summary env model audio_data debug_mode debug_log_container w)
      as (T & errs & _ & Herr & [(text & Hs & _ & ->)|(Hf & _ & msg & ->)]).
    + left. exists text. split; [done|]. by rewrite Herr, app_nil_r.
    + right. split; [done|]. by exists msg.
  - intros text msg Hs Hr. split; [by apply (driver_success _ _ _ _ _ _ text)|].
    intros id Hcw. by eapply driver_logs_remove_failure.
Qed.

(** C8: when the model returns a text that is not empty after trimming,
    the stored transcript is that text trimmed: it is not empty, it is
    its own trimmed form, what was cut off at both ends is whitespace,
    and it neither starts nor ends with whitespace. *)
Theorem transcript_is_trimmed_text w text :
  attempt_succeeds env audio_data w text -> PyStr.strip text <> [] ->
  exists T,
    session_state (after driver w) !! "transcript" = Some (VStr T) /\
    T = PyStr.strip text /\ T <> [] /\ PyStr.strip T = T /\
    (exists a b, text = a ++ T ++ b /\
                 forallb PyStr.is_whitespace a = true /\
                 forallb PyStr.is_whitespace b = true) /\
    (forall ch rest, T = ch :: rest -> PyStr.is_whitespace ch = false) /\
    (forall init ch, T = init ++ [ch] -> PyStr.is_whitespace ch = false).
Proof.
  intros H Hne. exists (PyStr.strip text).
  split; [by apply driver_success|]. split; [done|]. split; [done|].
  split; [apply strip_idempotent|].
  split; [apply strip_split|]. split; [apply strip_head|apply strip_last].
Qed.

End DriverClaims.

(** C4: a run of the script on a recording for which the model returns
    an empty or all-whitespace text ends without an error box, with the
    empty string as transcript and with [transcribed] true; and every
    call of the driver on such a text returns, adds no error box and
    leaves the empty string as transcript. *)
Theorem silence_is_not_an_error env audio_data text :
  forallb PyStr.is_whitespace text = true ->
  (forall ui w,
     audio_input ui = Some audio_data -> audio_data <> [] -> pending w = true ->
     whisper_load_model env = Answers tt -> areas_ok w = true -> button ui = false ->
     attempt_succeeds env audio_data w text ->
     result (main env ui) w = Returns tt /\
     error_boxes (page (after (main env ui) w)) = error_boxes (page w) /\
     session_state (after (main env ui) w) !! "transcript" = Some (VStr []) /\
     session_state (after (main env ui) w) !! "transcribed" = Some (VBool true)) /\
  (forall model debug_mode debug_log_container w,
     attempt_succeeds env audio_data w text ->
     let driver :=
       process_and_transcribe_buffer env model audio_data debug_mode debug_log_container in
     result driver w = Returns tt /\
     error_boxes (page (after driver w)) = error_boxes (page w) /\
     session_state (after driver w) !! "transcript" = Some (VStr [])).
Proof.
  intros Hws. pose proof (strip_whitespace text Hws) as Hstrip. split.
  - intros ui w Ha Hne Hp Hl Hok Hb Hs.
    destruct (main_transcribes env ui w audio_data Ha Hne Hp Hl Hok Hb)
      as (T & errs & Hr & Hflag & _ & Ht & Herr & _ & Hcase).
    destruct Hcase as [(text' & Hs' & -> & ->)|(Hf & _)].
    + assert (text' = text) as ->.
      { destruct Hs as (s1 & E1 & _ & _ & _ & Ht1), Hs' as (s2 & E2 & _ & _ & _ & Ht2).
        congruence. }
      rewrite Hstrip in Ht. rewrite app_nil_r in Herr. done.
    + destruct (attempt_not_both env audio_data w text Hs Hf).
  - intros model debug_mode debug_log_container w Hs driver. subst driver.
    destruct (driver_success env model audio_data debug_mode debug_log_container w text Hs)
      as [Ht Hp].
    split; [apply driver_returns|]. rewrite Hstrip in Ht. split; [|done].
    rewrite <- error_boxes_shown, Hp, error_boxes_app, error_boxes_shown. simpl.
    apply app_nil_r.
Qed.

(** C5: a run of the script that starts with [transcribed] true does not
    call the model, whatever the widgets hold; and as long as the reset
    button is not pressed, no later run does. *)
Theorem transcribed_recording_not_transcribed_again env ui w :
  pending w = false ->
  transcribe_calls (after (main env ui) w) = transcribe_calls w /\
  forall events,
    forallb no_reset events = true ->
    transcribe_calls (lifetime events w) = transcribe_calls w.
Proof.
  intros H. split; [by apply main_keeps_transcribe_calls|].
  intros events Hall. by apply lifetime_no_reset.
Qed.

(** C6: the reset leaves the empty string as transcript, [None] as
    [audio_data] and [False] as [transcribed], from every state; and a
    run of the script in which the button is pressed ends in that state,
    with the request to run again. *)
Theorem reset_clears_session :
  (forall w,
     session_state (after repeat_transcription w) !! "transcript" = Some (VStr []) /\
     session_state (after repeat_transcription w) !! "audio_data" = Some VNone /\
     session_state (after repeat_transcription w) !! "transcribed" = Some (VBool false)) /\
  (forall env ui w,
     button ui = true -> whisper_load_model env = Answers tt -> areas_ok w = true ->
     result (main env ui) w = Raises RerunException /\
     session_state (after (main env ui) w) !! "transcript" = Some (VStr []) /\
     session_state (after (main env ui) w) !! "audio_data" = Some VNone /\
     session_state (after (main env ui) w) !! "transcribed" = Some (VBool false)).
Proof. split; [apply repeat_transcription_clears|apply main_reset]. Qed.

(** C7: in the life of a process, once the loader has returned a handle
    for a size, every later call with that size returns the same handle
    and changes nothing, whatever the library would answer; the library
    has loaded that size exactly once, and no size more than once. *)
Theorem load_whisper_model_memoized events later env1 env2 model_size handle :
  result (load_whisper_model env1 model_size) (lifetime events fresh_world) = Returns handle ->
  let w1 := after (load_whisper_model env1 model_size) (lifetime events fresh_world) in
  let w2 := lifetime later w1 in
  load_whisper_model env2 model_size w2 = (Returns handle, w2) /\
  count_loads model_size w2 = 1 /\
  forall s, count_loads s w2 <= 1.
Proof.
  intros H w1 w2.
  assert (cache_resource w2 !! model_size = Some handle) as Hhit.
  { apply lifetime_persists. by apply load_whisper_model_cached. }
  assert (cache_consistent w2) as Hinv.
  { apply lifetime_consistent, load_whisper_model_consistent, lifetime_consistent.
    apply fresh_world_consistent. }
  split; [by apply load_whisper_model_hit|]. split.
  - by rewrite Hinv, Hhit.
  - intros s. by apply consistent_at_most_once.
Qed.

(** C9: in a run of the script on a recording with content and
    [transcribed] false, the flag is set before the driver starts: the
    guarded block is the driver run from the session with the recording
    stored and the flag true.  The flag is true after the run; when the
    [try] block of the driver fails, the run still ends normally with
    the empty transcript offered for download; the next run does not
    call the model, whatever the widgets hold, and no later run does as
    long as the reset button is not pressed. *)
Theorem flag_set_before_driver env ui w audio_data :
  audio_input ui = Some audio_data -> audio_data <> [] -> pending w = true ->
  whisper_load_model env = Answers tt -> areas_ok w = true -> button ui = false ->
  (forall model dla w1 v,
     session_state w1 !! "transcribed" = Some v -> truthy v = false ->
     transcribe_pending env model (audio_input ui) (checkbox ui) dla w1
     = process_and_transcribe_buffer env model audio_data (checkbox ui) dla
         (with_session (insert "transcribed" (VBool true))
            (with_session (insert "audio_data" (VBytes audio_data)) w1))) /\
  session_state (after (main env ui) w) !! "transcribed" = Some (VBool true) /\
  (attempt_fails env audio_data w ->
   result (main env ui) w = Returns tt /\
   session_state (after (main env ui) w) !! "transcript" = Some (VStr []) /\
   DownloadButton "transcript.txt" (VStr []) ∈ page (after (main env ui) w)) /\
  (forall env' ui',
     transcribe_calls (after (main env' ui') (after (main env ui) w))
     = transcribe_calls (after (main env ui) w)) /\
  (forall events,
     forallb no_reset events = true ->
     transcribe_calls (lifetime events (after (main env ui) w))
     = transcribe_calls (after (main env ui) w)).
Proof.
  intros Ha Hne Hp Hl Hok Hb.
  destruct (main_transcribes env ui w audio_data Ha Hne Hp Hl Hok Hb)
    as (T & errs & Hr & Hflag & _ & Ht & _ & Hdl & Hcase).
  assert (pending (after (main env ui) w) = false) as Hdone.
  { unfold pending. by rewrite Hflag. }
  split; [|split; [exact Hflag|split; [|split]]].
  - intros model dla w1 v Hv Hfalse. rewrite Ha. by eapply transcribe_pending_fires.
  - intros Hf. destruct Hcase as [(text & Hs & _)|(_ & -> & _)]; [|done].
    destruct (attempt_not_both env audio_data w text Hs Hf).
  - intros env' ui'. by apply main_keeps_transcribe_calls.
  - intros events Hall. by apply lifetime_no_reset.
Qed.

(** C10: on an empty recording the guarded block only stores the buffer:
    it calls neither the driver nor the model and leaves the flag.  In
    the run of the script the model is not called and [transcribed]
    stays false; and the empty buffer is what [audio_data] holds at the
    end of a run that reaches the block without the reset button. *)
Theorem empty_recording_is_stored_only env ui w :
  audio_input ui = Some [] -> pending w = true ->
  (forall model dla w1 v,
     session_state w1 !! "transcribed" = Some v -> truthy v = false ->
     transcribe_pending env model (audio_input ui) (checkbox ui) dla w1
     = (Returns tt, with_session (insert "audio_data" (VBytes [])) w1)) /\
  transcribe_calls (after (main env ui) w) = transcribe_calls w /\
  (exists v, session_state (after (main env ui) w) !! "transcribed" = Some v /\
             truthy v = false) /\
  (whisper_load_model env = Answers tt -> areas_ok w = true -> button ui = false ->
   session_state (after (main env ui) w) !! "audio_data" = Some (VBytes [])).
Proof.
  intros Ha Hp.
  destruct (main_empty_recording env ui w Ha Hp) as [Hcalls Hflag].
  split; [|split; [exact Hcalls|split; [exact Hflag|]]].
  - intros model dla w1 v Hv Hfalse. rewrite Ha. by eapply transcribe_pending_empty.
  - intros Hl Hok Hb. by apply main_stores_empty_recording.
Qed.

(** * The properties at sample inputs *)

(** With the transcript "hello" in the session and a model whose
    transcribe call raises, the driver leaves the empty string, not
    "hello". *)
Lemma transcript_lost_on_failure :
  attempt_fails (studio (Answers tt) (Fails (py "no audio")) (Answers tt)) riff told /\
  session_state told !! "transcript" = Some (VStr (py "hello")) /\
  session_state
    (after (process_and_transcribe_buffer
              (studio (Answers tt) (Fails (py "no audio")) (Answers tt)) 0 riff false None)
       told) !! "transcript"
  = Some (VStr []).
Proof.
  split; [do 4 right; eexists; reflexivity|]. split; vm_compute; reflexivity.
Qed.

Lemma failed_transcription_clears_transcript_witness :
  session_state
    (after (process_and_transcribe_buffer
              (studio (Answers tt) (Fails (py "no audio")) (Answers tt)) 0 riff false None)
       told) !! "transcript"
  = Some (VStr []) /\
  session_state
    (after (process_and_transcribe_buffer
              (studio (Answers tt) (Fails (py "no audio")) (Answers tt)) 0 riff false None)
       told) !! "transcribed"
  = session_state told !! "transcribed".
Proof.
  assert (attempt_fails (studio (Answers tt) (Fails (py "no audio")) (Answers tt)) riff told)
    as H by (do 4 right; eexists; reflexivity).
  destruct (failed_transcription_clears_transcript
              (studio (Answers tt) (Fails (py "no audio")) (Answers tt)) 0 riff false None
              told H) as (_ & Ht & _ & Hf & _).
  exact (conj Ht Hf).
Defined.

(** When the deletion raises, the driver swallows the exception and
    returns, and the temporary file is still there. *)
Lemma temp_file_left_when_remove_fails :
  files fresh_world !! "/tmp/tmpq1.wav" = None /\
  result (process_and_transcribe_buffer
            (studio (Answers tt) (Answers (py "hello")) (Fails (py "Permission denied")))
            0 riff false None) fresh_world
  = Returns tt /\
  files
    (after (process_and_transcribe_buffer
              (studio (Answers tt) (Answers (py "hello")) (Fails (py "Permission denied")))
              0 riff false None) fresh_world) !! "/tmp/tmpq1.wav"
  = Some riff.
Proof. repeat split; vm_compute; reflexivity. Qed.

(** When writing the buffer raises, [temp_audio_file_path] is still
    [None] in the [finally] block: the file that was created is not
    deleted, although the deletion would go through. *)
Example temp_file_left_when_write_fails :
  files
    (after (process_and_transcribe_buffer
              (studio (Fails (py "No space left on device")) (Answers (py "hello"))
                 (Answers tt))
              0 riff false None) fresh_world) !! "/tmp/tmpq1.wav"
  = Some [].
Proof. vm_compute. reflexivity. Qed.

(** When the deletion raises, the driver catches the exception and
    returns, but nothing tells the user: without debug mode the page
    holds the placeholder and the spinner only, and nothing is
    printed. *)
Lemma remove_failure_is_not_reported :
  result (process_and_transcribe_buffer
            (studio (Answers tt) (Answers (py "hello")) (Fails (py "Permission denied")))
            0 riff false None) fresh_world
  = Returns tt /\
  page
    (after (process_and_transcribe_buffer
              (studio (Answers tt) (Answers (py "hello")) (Fails (py "Permission denied")))
              0 riff false None) fresh_world)
  = [NewPlaceholder 0; Spinner (py "Transcribing...")] /\
  error_boxes
    (page
       (after (process_and_transcribe_buffer
                 (studio (Answers tt) (Answers (py "hello")) (Fails (py "Permission denied")))
                 0 riff false None) fresh_world))
  = [] /\
  stdout
    (after (process_and_transcribe_buffer
              (studio (Answers tt) (Answers (py "hello")) (Fails (py "Permission denied")))
              0 riff false None) fresh_world)
  = [].
Proof. repeat split; vm_compute; reflexivity. Qed.

Lemma temp_file_removed_witness :
  files
    (after (process_and_transcribe_buffer
              (studio (Answers tt) (Fails (py "no audio")) (Answers tt)) 0 riff false None)
       fresh_world) !! "/tmp/tmpq1.wav"
  = None.
Proof.
  apply (temp_file_removed (studio (Answers tt) (Fails (py "no audio")) (Answers tt))
           0 riff false None fresh_world "/tmp/tmpq1"); reflexivity.
Defined.

Lemma silence_is_not_an_error_witness :
  session_state
    (after (main (studio (Answers tt) (Answers (py "  ")) (Answers tt)) (recorded riff))
       fresh_world) !! "transcript" = Some (VStr []) /\
  session_state
    (after (main (studio (Answers tt) (Answers (py "  ")) (Answers tt)) (recorded riff))
       fresh_world) !! "transcribed" = Some (VBool true).
Proof.
  destruct (silence_is_not_an_error (studio (Answers tt) (Answers (py "  ")) (Answers tt))
              riff (py "  ") eq_refl) as [Hmain _].
  destruct (Hmain (recorded riff) fresh_world) as (_ & _ & Ht & Hf);
    try reflexivity; [discriminate| |exact (conj Ht Hf)].
  exists "/tmp/tmpq1". repeat split; reflexivity.
Defined.

Lemma transcribed_recording_not_transcribed_again_witness :
  transcribe_calls
    (after (main (studio (Answers tt) (Answers (py "hello")) (Answers tt)) (recorded riff))
       (with_session (insert "transcribed" (VBool true)) fresh_world))
  = [].
Proof.
  apply (transcribed_recording_not_transcribed_again
           (studio (Answers tt) (Answers (py "hello")) (Answers tt)) (recorded riff)
           (with_session (insert "transcribed" (VBool true)) fresh_world)).
  reflexivity.
Defined.

Lemma reset_clears_session_witness :
  session_state
    (after (main (studio (Answers tt) (Answers (py "hello")) (Answers tt))
              (Widgets "base" false (Some riff) true))
       fresh_world) !! "transcribed" = Some (VBool false).
Proof.
  destruct reset_clears_session as [_ Hmain].
  apply (Hmain (studio (Answers tt) (Answers (py "hello")) (Answers tt))
           (Widgets "base" false (Some riff) true) fresh_world); reflexivity.
Defined.

Lemma load_whisper_model_memoized_witness :
  result (load_whisper_model (studio (Answers tt) (Answers []) (Answers tt)) "base")
    (lifetime [RunScript (studio (Answers tt) (Answers (py "hello")) (Answers tt))
                 (recorded riff)]
       (after (load_whisper_model (studio (Answers tt) (Answers []) (Answers tt)) "base")
          (lifetime [] fresh_world)))
  = Returns 0.
Proof.
  unfold result.
  rewrite (proj1 (load_whisper_model_memoized []
                    [RunScript (studio (Answers tt) (Answers (py "hello")) (Answers tt))
                       (recorded riff)]
                    (studio (Answers tt) (Answers []) (Answers tt))
                    (studio (Answers tt) (Answers []) (Answers tt)) "base" 0 eq_refl)).
  reflexivity.
Defined.

Lemma transcript_is_trimmed_text_witness :
  session_state
    (after (process_and_transcribe_buffer
              (studio (Answers tt) (Answers (py " hello world ")) (Answers tt))
              0 riff false None) fresh_world) !! "transcript"
  = Some (VStr (py "hello world")).
Proof.
  destruct (transcript_is_trimmed_text
              (studio (Answers tt) (Answers (py " hello world ")) (Answers tt))
              0 riff false None fresh_world (py " hello world ")) as (T & Ht & -> & _).
  - exists "/tmp/tmpq1". repeat split; reflexivity.
  - vm_compute. discriminate.
  - exact Ht.
Defined.

Lemma flag_set_before_driver_witness :
  session_state
    (after (main (studio (Answers tt) (Fails (py "no audio")) (Answers tt)) (recorded riff))
       fresh_world) !! "transcribed" = Some (VBool true) /\
  DownloadButton "transcript.txt" (VStr [])
  ∈ page (after (main (studio (Answers tt) (Fails (py "no audio")) (Answers tt))
                   (recorded riff)) fresh_world).
Proof.
  destruct (flag_set_before_driver
              (studio (Answers tt) (Fails (py "no audio")) (Answers tt)) (recorded riff)
              fresh_world riff) as (_ & Hflag & Hfail & _ & _);
    try reflexivity; [discriminate|].
  destruct Hfail as (_ & _ & Hdl); [do 4 right; eexists; reflexivity|].
  exact (conj Hflag Hdl).
Defined.

Lemma empty_recording_is_stored_only_witness :
  transcribe_calls
    (after (main (studio (Answers tt) (Answers (py "hello")) (Answers tt)) (recorded []))
       fresh_world) = [] /\
  session_state
    (after (main (studio (Answers tt) (Answers (py "hello")) (Answers tt)) (recorded []))
       fresh_world) !! "audio_data" = Some (VBytes []).
Proof.
  destruct (empty_recording_is_stored_only
              (studio (Answers tt) (Answers (py "hello")) (Answers tt)) (recorded [])
              fresh_world) as (_ & Hcalls & _ & Haudio); try reflexivity.
  split; [exact Hcalls|]. apply Haudio; reflexivity.
Defined.

(** The button "Repeat transcription" re-arms the guard: after a
    transcription, a run with the button pressed and the run that
    follows it transcribe the same recording a second time. *)
Example repeat_transcribes_again :
  transcribe_calls
    (lifetime
       [RunScript (studio (Answers tt) (Answers (py "hello")) (Answers tt)) (recorded riff);
        RunScript (studio (Answers tt) (Answers (py "hello")) (Answers tt))
          (Widgets "base" false (Some riff) true);
        RunScript (studio (Answers tt) (Answers (py "hello")) (Answers tt)) (recorded riff)]
       fresh_world)
  = [(0, "/tmp/tmpq1.wav"); (0, "/tmp/tmpq1.wav")].
Proof. vm_compute. reflexivity. Qed.

(** * Further properties of the code *)

(** ** The debug helper *)

Lemma d_write_off env debug_mode debug_log_container message w :
  debug_mode = false \/ debug_log_container = None ->
  d_write env debug_mode debug_log_container message w = (Returns tt, w).
Proof. intros [->| ->]; [done|by destruct debug_mode]. Qed.

(** X1: [d_write] catches every [Exception] of the container's write:
    whether that write returns or raises one, [d_write] returns, and it
    leaves the session, the files, the calls of the model, the resource
    cache and everything on the page but the debug log as they are.
    Without debug mode or without a container it does nothing at all;
    with both it adds the message to the container, or, when the write
    raises an [Exception], prints "Debug write error: ..." instead. *)
Theorem d_write_never_disturbs env debug_mode debug_log_container message w :
  let w' := after (d_write env debug_mode debug_log_container message) w in
  result (d_write env debug_mode debug_log_container message) w = Returns tt /\
  session_state w' = session_state w /\ files w' = files w /\
  transcribe_calls w' = transcribe_calls w /\ cache_resource w' = cache_resource w /\
  shown (page w') = shown (page w) /\
  (debug_mode = false \/ debug_log_container = None -> w' = w) /\
  (forall id,
     debug_mode = true -> debug_log_container = Some id ->
     w' = match container_write env message with
          | Answers _ => with_page (fun p => p ++ [ContainerWrite id message]) w
          | Fails e => with_stdout (fun o => o ++ [py "Debug write error: " ++ e]) w
          end).
Proof.
  intros w'. subst w'.
  split; [apply d_write_returns|]. split; [apply d_write_session_state|].
  split; [apply d_write_files|]. split; [apply d_write_transcribe_calls|].
  split; [apply d_write_cache_resource|]. split; [apply d_write_shown|]. split.
  - intros H. unfold after. by rewrite d_write_off.
  - intros id -> ->. unfold after, d_write, try_except, bind, call.
    by destruct (container_write env message).
Qed.

(** ** The paths through the driver *)

Ltac driver_simpl :=
  repeat first
    [ progress cbn [session_state files transcribe_calls page placeholders
                    with_session with_files with_transcribe_calls with_page with_placeholders]
    | rewrite d_write_session_state | rewrite d_write_files
    | rewrite d_write_transcribe_calls | rewrite d_write_placeholders
    | rewrite d_write_shown | rewrite shown_app
    | progress cbn [shown List.filter negb is_debug_write] ].

Ltac driver_leaf :=
  repeat (progress (driver_simpl; map_simpl)); rewrite <- ?app_assoc; try done.

(** The table of the paths: for each answer of the file system and of
    the model, the files, the calls of the model, the transcript and the
    page that the driver leaves. *)
Lemma driver_paths env model audio_data debug_mode debug_log_container w :
  let w' := after (process_and_transcribe_buffer env model audio_data debug_mode
                     debug_log_container) w in
  let started := shown (page w)
                 ++ [NewPlaceholder (placeholders w); Spinner (py "Transcribing...")] in
  let failed msg :=
    transcribe_calls w' = transcribe_calls w /\
    session_state w' !! "transcript" = Some (VStr []) /\
    shown (page w') = started ++ [ErrorBox (py "Transcription error: " ++ msg)] in
  match mkstemp env with
  | Fails msg => files w' = files w /\ failed msg
  | Answers stem =>
      let name := stem +:+ ".wav" in
      let left content :=
        files w' = match os_remove env with
                   | Answers _ => files w
                   | Fails _ => <[name:=content]> (files w)
                   end in
      match files w !! name with
      | Some _ =>
          files w' = files w /\
          failed (py "[Errno 17] No usable temporary file name found")
      | None =>
          match file_write env with
          | Fails msg =>
              files w' = <[name:=take (flushed env) audio_data]> (files w) /\
              match file_close env with
              | Answers _ => failed msg
              | Fails msg' => failed msg'
              end
          | Answers _ =>
              match file_close env with
              | Fails msg => left (take (flushed env) audio_data) /\ failed msg
              | Answers _ =>
                  left audio_data /\
                  transcribe_calls w' = transcribe_calls w ++ [(model, name)] /\
                  match whisper_transcribe env (Some audio_data) with
                  | Fails msg =>
                      session_state w' !! "transcript" = Some (VStr []) /\
                      shown (page w')
                      = started ++ [ErrorBox (py "Transcription error: " ++ msg)]
                  | Answers text =>
                      session_state w' !! "transcript" = Some (VStr (PyStr.strip text)) /\
                      shown (page w') = started
                  end
              end
          end
      end
  end.
Proof.
  cbv zeta.
  match goal with
  | |- context [after ?d w] =>
      pattern (after d w);
      match goal with |- ?Q _ => change (wp d (fun _ => Q) w) end
  end.
  unfold process_and_transcribe_buffer; cbv zeta; wp_run.
  all: repeat split; driver_leaf.
  all: try (match goal with H : _ && _ = false |- _ => by rewrite (strip_falsy _ H) end).
  all: rewrite ?delete_alter_eq, ?delete_insert_eq, ?alter_insert_eq; cbn [app].
  all: by rewrite ?take_take, ?Nat.min_id, ?delete_id.
Qed.

Lemma strip_empty_iff text :
  PyStr.strip text = [] <-> forallb PyStr.is_whitespace text = true.
Proof.
  split; [|apply strip_whitespace].
  intros H. destruct (strip_split text) as (a & b & Htext & Ha & Hb).
  rewrite H in Htext. rewrite Htext. simpl. rewrite forallb_app. by rewrite Ha, Hb.
Qed.

Lemma attempt_succeeds_text env audio_data w text text' :
  attempt_succeeds env audio_data w text -> attempt_succeeds env audio_data w text' ->
  text' = text.
Proof. intros (s1 & _ & _ & _ & _ & H1) (s2 & _ & _ & _ & _ & H2). congruence. Qed.

Section DriverProperties.
Variables (env : environment) (model : nat) (audio_data : bytes).
Variables (debug_mode : bool) (debug_log_container : option nat).

Local Abbreviation driver :=
  (process_and_transcribe_buffer env model audio_data debug_mode debug_log_container).

Ltac by_paths w :=
  pose proof (driver_paths env model audio_data debug_mode debug_log_container w) as Hpaths;
  cbv zeta in Hpaths.

Lemma driver_files_cases w :
  (((exists msg, mkstemp env = Fails msg) \/
    (exists stem, mkstemp env = Answers stem /\ is_Some (files w !! (stem +:+ ".wav")))) /\
   files (after driver w) = files w) \/
  (exists stem,
     mkstemp env = Answers stem /\ files w !! (stem +:+ ".wav") = None /\
     files (after driver w)
     = match file_write env, file_close env, os_remove env with
       | Fails _, _, _ | Answers _, Fails _, Fails _ =>
           <[stem +:+ ".wav":=take (flushed env) audio_data]> (files w)
       | Answers _, Answers _, Fails _ => <[stem +:+ ".wav":=audio_data]> (files w)
       | Answers _, _, Answers _ => files w
       end).
Proof.
  by_paths w.
  destruct (mkstemp env) as [stem|msg]; [|left; split; [eauto|apply Hpaths]].
  destruct (files w !! (stem +:+ ".wav")) eqn:E; [left; split; [eauto|apply Hpaths]|].
  right. exists stem. do 2 (split; [done|]).
  destruct (file_write env), (file_close env); destruct Hpaths as [-> _];
    by destruct (os_remove env).
Qed.

Lemma driver_transcribe_calls w :
  transcribe_calls (after driver w)
  = transcribe_calls w
    ++ match mkstemp env with
       | Answers stem =>
           match files w !! (stem +:+ ".wav"), file_write env, file_close env with
           | None, Answers _, Answers _ => [(model, stem +:+ ".wav")]
           | _, _, _ => []
           end
       | Fails _ => []
       end.
Proof.
  by_paths w.
  destruct (mkstemp env) as [stem|msg]; [|rewrite app_nil_r; apply Hpaths].
  destruct (files w !! (stem +:+ ".wav")); [rewrite app_nil_r; apply Hpaths|].
  destruct (file_write env), (file_close env); rewrite ?app_nil_r; apply Hpaths.
Qed.

Lemma driver_files_tidy w :
  file_write env = Answers tt -> os_remove env = Answers tt ->
  files (after driver w) = files w.
Proof.
  intros Hw Hr.
  destruct (driver_files_cases w) as [[_ H]|(stem & _ & _ & H)]; [done|].
  rewrite Hw, Hr in H. by destruct (file_close env).
Qed.

Lemma driver_transcript w :
  exists T, session_state (after driver w) !! "transcript" = Some (VStr T) /\
            PyStr.strip T = T.
Proof.
  destruct (driver_summary env model audio_data debug_mode debug_log_container w)
    as (T & errs & HT & _ & [(text & _ & -> & _)|(_ & -> & _)]); eexists; split; try done.
  apply strip_idempotent.
Qed.

(** X2: when the temporary file is created under a name that was not
    taken, what the driver puts on the page, the debug log apart, is a
    new placeholder, the spinner and, when an exception leaves the [try]
    block, one error box with the message of that exception: the one of
    the search for the name, of closing the file (which replaces the one
    of writing), of writing, or of the model's call; there is no error
    box otherwise. *)
Theorem error_box_shows_exception w :
  (forall stem, mkstemp env = Answers stem -> files w !! (stem +:+ ".wav") = None) ->
  shown (page (after driver w))
  = shown (page w) ++ [NewPlaceholder (placeholders w); Spinner (py "Transcribing...")]
    ++ match raised_in_try env audio_data with
       | Some msg => [ErrorBox (py "Transcription error: " ++ msg)]
       | None => []
       end.
Proof.
  intros Hnew. by_paths w. unfold raised_in_try.
  destruct (mkstemp env) as [stem|msg]; [|by rewrite app_assoc; apply Hpaths].
  rewrite (Hnew stem eq_refl) in Hpaths.
  destruct (file_write env), (file_close env);
    try (rewrite app_assoc; apply Hpaths).
  destruct Hpaths as (_ & _ & Hpaths).
  destruct (whisper_transcribe env (Some audio_data));
    rewrite app_assoc, ?app_nil_r; apply Hpaths.
Qed.

(** X3: the driver never removes or changes a file that was there
    before the call.  When no file is created (the search for a name
    fails) the temporary directory is as before.  When one is created,
    it is left behind with the part of the recording that had reached it
    if writing raises; if the deletion raises, it is left behind with
    the recording after a close that returned, and with a part of the
    recording after a close that raised; it is gone otherwise. *)
Theorem driver_leaves_at_most_its_own_file w :
  files w ⊆ files (after driver w) /\
  ((((exists msg, mkstemp env = Fails msg) \/
     (exists stem, mkstemp env = Answers stem /\ is_Some (files w !! (stem +:+ ".wav")))) /\
    files (after driver w) = files w) \/
   (exists stem,
      mkstemp env = Answers stem /\ files w !! (stem +:+ ".wav") = None /\
      files (after driver w)
      = match file_write env, file_close env, os_remove env with
        | Fails _, _, _ | Answers _, Fails _, Fails _ =>
            <[stem +:+ ".wav":=take (flushed env) audio_data]> (files w)
        | Answers _, Answers _, Fails _ => <[stem +:+ ".wav":=audio_data]> (files w)
        | Answers _, _, Answers _ => files w
        end)).
Proof.
  pose proof (driver_files_cases w) as H.
  split; [|exact H].
  destruct H as [[_ ->]|(stem & _ & Hnew & ->)]; [done|].
  destruct (file_write env), (file_close env), (os_remove env);
    try done; by apply insert_subseteq.
Qed.

(** X4: the driver calls the model at most once, with the handle that
    it was given and the path of the temporary file, and exactly when
    that file was created, written and closed without an exception. *)
Theorem model_called_once_on_written_file w :
  transcribe_calls (after driver w)
  = transcribe_calls w
    ++ match mkstemp env with
       | Answers stem =>
           match files w !! (stem +:+ ".wav"), file_write env, file_close env with
           | None, Answers _, Answers _ => [(model, stem +:+ ".wav")]
           | _, _, _ => []
           end
       | Fails _ => []
       end.
Proof.
  by_paths w.
  destruct (mkstemp env) as [stem|msg]; [|rewrite app_nil_r; apply Hpaths].
  destruct (files w !! (stem +:+ ".wav")); [rewrite app_nil_r; apply Hpaths|].
  destruct (file_write env), (file_close env); rewrite ?app_nil_r; apply Hpaths.
Qed.

(** X5: when the [try] block runs to its end, the transcript that the
    driver leaves is empty exactly when the text of the model is empty
    or all whitespace. *)
Theorem empty_transcript_iff_whitespace w text :
  attempt_succeeds env audio_data w text ->
  (session_state (after driver w) !! "transcript" = Some (VStr [])
   <-> forallb PyStr.is_whitespace text = true).
Proof.
  intros H.
  destruct (driver_success env model audio_data debug_mode debug_log_container w text H)
    as [-> _].
  rewrite <- strip_empty_iff. split; [by intros [= ->]|by intros ->].
Qed.

End DriverProperties.

Lemma error_box_shows_exception_witness :
  shown
    (page (after (process_and_transcribe_buffer
                    (studio (Fails (py "No space left on device")) (Answers (py "hello"))
                       (Answers tt))
                    0 riff false None) fresh_world))
  = [NewPlaceholder 0; Spinner (py "Transcribing...");
     ErrorBox (py "Transcription error: No space left on device")].
Proof.
  apply (error_box_shows_exception
           (studio (Fails (py "No space left on device")) (Answers (py "hello")) (Answers tt))
           0 riff false None fresh_world).
  intros stem [= <-]. reflexivity.
Defined.

Lemma empty_transcript_iff_whitespace_witness :
  session_state
    (after (process_and_transcribe_buffer
              (studio (Answers tt) (Answers (py " ")) (Answers tt)) 0 riff false None)
       fresh_world) !! "transcript"
  = Some (VStr []).
Proof.
  apply (empty_transcript_iff_whitespace
           (studio (Answers tt) (Answers (py " ")) (Answers tt)) 0 riff false None
           fresh_world (py " ")); [|reflexivity].
  exists "/tmp/tmpq1". repeat split; reflexivity.
Defined.

(** X6: the debug configuration does not change what the driver does:
    with any debug mode, any container and any answers of the
    container, the driver leaves the same session, the same files, the
    same calls of the model and, the debug log apart, the same page. *)
Theorem debug_log_is_transparent c l m fw fc n t r cw cw' model audio_data dm dc dm' dc' w :
  let w1 := after (process_and_transcribe_buffer (Environment c l m fw fc n t r cw)
                     model audio_data dm dc) w in
  let w2 := after (process_and_transcribe_buffer (Environment c l m fw fc n t r cw')
                     model audio_data dm' dc') w in
  session_state w1 = session_state w2 /\ files w1 = files w2 /\
  transcribe_calls w1 = transcribe_calls w2 /\ shown (page w1) = shown (page w2) /\
  cache_resource w1 = cache_resource w2 /\ loaded w1 = loaded w2 /\
  placeholders w1 = placeholders w2.
Proof.
  intros w1 w2.
  pose proof (driver_paths (Environment c l m fw fc n t r cw) model audio_data dm dc w)
    as H1.
  pose proof (driver_paths (Environment c l m fw fc n t r cw') model audio_data dm' dc' w)
    as H2.
  pose proof (driver_frame (Environment c l m fw fc n t r cw) model audio_data dm dc w)
    as (_ & Hc1 & Hl1 & Hp1 & Ha1 & Hk1).
  pose proof (driver_frame (Environment c l m fw fc n t r cw') model audio_data dm' dc' w)
    as (_ & Hc2 & Hl2 & Hp2 & Ha2 & Hk2).
  fold w1 in H1, Hc1, Hl1, Hp1, Ha1, Hk1. fold w2 in H2, Hc2, Hl2, Hp2, Ha2, Hk2.
  cbv zeta in H1, H2.
  cbn [mkstemp file_write file_close flushed whisper_transcribe os_remove] in H1, H2.
  assert (session_state w1 !! "transcript" = session_state w2 !! "transcript" /\
          files w1 = files w2 /\ transcribe_calls w1 = transcribe_calls w2 /\
          shown (page w1) = shown (page w2)) as (Ht & Hf & Hcalls & Hshown).
  { destruct m as [stem|msg]; [|destruct_and?; repeat split; congruence].
    destruct (files w !! (stem +:+ ".wav")); [destruct_and?; repeat split; congruence|].
    destruct fw, fc, (t (Some audio_data)), r; destruct_and?; repeat split; congruence. }
  split; [|repeat split; congruence].
  apply map_eq. intros k.
  destruct (decide (k = "transcript")) as [->|Hk]; [done|].
  destruct (decide (k = "transcript_display_area")) as [->|Hk']; [congruence|].
  by rewrite Hk1, Hk2.
Qed.

(** ** The first blocks of the script *)

Lemma setdefault_present k d (ss : gmap string pyval) :
  is_Some (ss !! k) -> setdefault k d ss = ss.
Proof. intros [v H]. unfold setdefault. by rewrite H. Qed.

Lemma lookup_setdefault_Some k j d v (ss : gmap string pyval) :
  ss !! k = Some v -> setdefault j d ss !! k = Some v.
Proof.
  intros H. unfold setdefault. destruct (ss !! j) eqn:E; [done|].
  rewrite lookup_insert_ne; [done|]. congruence.
Qed.

(** X7: the first block of the script returns, sets each of the three
    state keys that is missing to its default, and changes no value that
    the session already holds; running it again changes nothing. *)
Theorem initialize_session_state_keeps_values w :
  let w' := after initialize_session_state w in
  result initialize_session_state w = Returns tt /\
  (forall k v, session_state w !! k = Some v -> session_state w' !! k = Some v) /\
  session_state w' !! "transcript"
  = Some (default (VStr []) (session_state w !! "transcript")) /\
  session_state w' !! "audio_data" = Some (default VNone (session_state w !! "audio_data")) /\
  session_state w' !! "transcribed"
  = Some (default (VBool false) (session_state w !! "transcribed")) /\
  (forall k, k <> "transcript" -> k <> "audio_data" -> k <> "transcribed" ->
             session_state w' !! k = session_state w !! k) /\
  after initialize_session_state w' = w'.
Proof.
  intros w'. subst w'.
  split; [unfold result; by rewrite initialize_session_state_run|].
  split; [intros k v H; rewrite initialize_session_state_session;
          by do 3 apply lookup_setdefault_Some|].
  do 3 (split; [leaf|]).
  split; [intros k H1 H2 H3; leaf|].
  unfold after. rewrite !initialize_session_state_run. cbn [snd].
  destruct w as [ss c l f t p o n]. unfold with_session. cbn [session_state]. f_equal.
  rewrite (setdefault_present "transcript"), (setdefault_present "audio_data"),
    (setdefault_present "transcribed"); [done|..]; eexists; leaf.
Qed.

(** X8: with placeholders (or nothing) under its two keys, the block of
    the display areas gives the driver a debug container exactly in
    debug mode: with the checkbox set it returns the container of the
    placeholder stored under [debug_log_placeholder], the one of the
    session when there is one; without it, it returns [None] and the key
    is gone. *)
Theorem debug_area_follows_checkbox w :
  areas_ok w = true ->
  (exists id,
     result (display_areas true) w = Returns (Some id) /\
     session_state (after (display_areas true) w) !! "debug_log_placeholder"
     = Some (VPlaceholder id) /\
     (session_state w !! "debug_log_placeholder" = None \/
      session_state w !! "debug_log_placeholder" = Some (VPlaceholder id))) /\
  result (display_areas false) w = Returns None /\
  session_state (after (display_areas false) w) !! "debug_log_placeholder" = None.
Proof.
  unfold areas_ok. intros H.
  remember (session_state w !! "transcript_display_area") as o1 eqn:E1 in H.
  remember (session_state w !! "debug_log_placeholder") as o2 eqn:E2 in H.
  symmetry in E1, E2.
  destruct o1 as [[]|]; try done.
  all: destruct o2 as [[]|]; try done.
  all: split;
    [change (wp (display_areas true)
               (fun r w' => exists id, r = Returns (Some id) /\
                  session_state w' !! "debug_log_placeholder" = Some (VPlaceholder id) /\
                  (session_state w !! "debug_log_placeholder" = None \/
                   session_state w !! "debug_log_placeholder" = Some (VPlaceholder id))) w)
    |change (wp (display_areas false)
               (fun r w' => r = Returns None /\
                  session_state w' !! "debug_log_placeholder" = None) w)].
  all: unfold display_areas; wp_run.
  all: try (eexists; split; [reflexivity|]); split; leaf; auto.
Qed.

Lemma debug_area_follows_checkbox_witness :
  result (display_areas false)
    (with_session (insert "debug_log_placeholder" (VPlaceholder 7)) fresh_world)
  = Returns None /\
  session_state
    (after (display_areas false)
       (with_session (insert "debug_log_placeholder" (VPlaceholder 7)) fresh_world))
    !! "debug_log_placeholder" = None.
Proof.
  apply (debug_area_follows_checkbox
           (with_session (insert "debug_log_placeholder" (VPlaceholder 7)) fresh_world)).
  reflexivity.
Defined.

(** ** How a run of the script ends *)

Lemma load_whisper_model_result env model_size w :
  result (load_whisper_model env model_size) w
  = match cache_resource w !! model_size, whisper_load_model env with
    | Some handle, _ => Returns handle
    | None, Answers _ => Returns (length (loaded w))
    | None, Fails msg => Raises (PyException msg)
    end.
Proof.
  unfold result. rewrite load_whisper_model_run.
  destruct (cache_resource w !! model_size); [done|]. by destruct (whisper_load_model env).
Qed.

Lemma load_whisper_model_result_init env model_size w :
  result (load_whisper_model env model_size) (after initialize_session_state w)
  = result (load_whisper_model env model_size) w.
Proof.
  rewrite !load_whisper_model_result.
  by rewrite after_cache_resource, after_loaded by typeclasses eauto.
Qed.

Lemma main_prefix_loaded env ui w model :
  result (load_whisper_model env (selectbox ui)) w = Returns model -> areas_ok w = true ->
  exists dla w3,
    main env ui w
    = (transcribe_pending env model (audio_input ui) (checkbox ui) dla ;;;
       download_buttons ;;;
       (if button ui then repeat_transcription else ret tt) ;;;
       display_transcript) w3 /\
    session_ready w3.
Proof.
  intros Hmodel Hok. rewrite <- load_whisper_model_result_init in Hmodel.
  unfold main. cbv zeta.
  erewrite bind_returns by (unfold result; by rewrite initialize_session_state_run).
  erewrite bind_returns by exact Hmodel.
  destruct (display_areas_returns (checkbox ui)
              (after (load_whisper_model env (selectbox ui)) (after initialize_session_state w)))
    as (dla & id & Hdla & Harea); [by rewrite areas_ok_at_display|].
  erewrite bind_returns by exact Hdla.
  eexists dla, _. split; [reflexivity|].
  unfold session_ready. repeat split; [| | |by exists id].
  all: eexists; leaf.
Qed.

Lemma session_ready_ext w w' :
  session_state w' = session_state w -> session_ready w -> session_ready w'.
Proof. unfold session_ready. by intros ->. Qed.

Lemma display_transcript_returns w :
  session_ready w -> result display_transcript w = Returns tt.
Proof.
  intros ([t Ht] & _ & _ & [id Hid]).
  change (wp display_transcript (fun r _ => r = Returns tt) w).
  unfold display_transcript. wp_run. all: done.
Qed.

Lemma main_result env ui w :
  areas_ok w = true ->
  result (main env ui) w
  = match result (load_whisper_model env (selectbox ui)) w with
    | Raises e => Raises e
    | Returns _ => if button ui then Raises RerunException else Returns tt
    end.
Proof.
  intros Hok.
  destruct (result (load_whisper_model env (selectbox ui)) w) as [model|e] eqn:Hload.
  - destruct (main_prefix_loaded env ui w model Hload Hok) as (dla & w3 & Hmain & Hready).
    unfold result at 1. rewrite Hmain.
    destruct (transcribe_pending_ready env model (audio_input ui) (checkbox ui) dla w3 Hready)
      as [Hr Hready'].
    erewrite bind_returns by exact Hr.
    erewrite bind_returns by (by apply download_buttons_returns).
    assert (session_ready (after download_buttons
              (after (transcribe_pending env model (audio_input ui) (checkbox ui) dla) w3)))
      as Hready''.
    { eapply session_ready_ext; [|exact Hready']. by rewrite session_after by typeclasses eauto. }
    destruct (button ui).
    + destruct Hready'' as (_ & _ & _ & [id Hid]).
      erewrite bind_raises; [done|]. by eapply repeat_transcription_reruns.
    + erewrite bind_returns by reflexivity.
      by apply display_transcript_returns.
  - rewrite <- load_whisper_model_result_init in Hload.
    unfold result at 1, main. cbv zeta.
    erewrite bind_returns by (unfold result; by rewrite initialize_session_state_run).
    by erewrite bind_raises by exact Hload.
Qed.

Lemma load_whisper_model_raises env model_size w e :
  result (load_whisper_model env model_size) w = Raises e ->
  after (load_whisper_model env model_size) w = w.
Proof.
  unfold result, after. rewrite load_whisper_model_run.
  destruct (cache_resource w !! model_size); [done|]. by destruct (whisper_load_model env).
Qed.

Lemma main_load_failure env ui w e :
  result (load_whisper_model env (selectbox ui)) w = Raises e ->
  after (main env ui) w = after initialize_session_state w.
Proof.
  intros Hload. rewrite <- load_whisper_model_result_init in Hload.
  unfold after at 1, main. cbv zeta.
  erewrite bind_returns by (unfold result; by rewrite initialize_session_state_run).
  erewrite bind_raises by exact Hload. cbn [snd].
  by eapply load_whisper_model_raises.
Qed.

(** X9: when the collaborators return or fail with instances of
    [Exception] (the answers of the environment), a run of the script
    from a state that a process reaches ends in one of three ways: with
    the exception of [whisper.load_model] when the model of the selected
    size is not in the cache and cannot be loaded; else with the rerun
    request when the reset button is pressed; else normally.  No read of
    the session fails, no exception of the file system or of the
    model's transcribe call ends the run, and a run that ends with an
    exception has done nothing but the first block: nothing is stored,
    shown or transcribed. *)
Theorem run_ends_in_one_of_three_ways events env ui :
  let w := lifetime events fresh_world in
  result (main env ui) w
  = match cache_resource w !! selectbox ui, whisper_load_model env with
    | None, Fails msg => Raises (PyException msg)
    | _, _ => if button ui then Raises RerunException else Returns tt
    end /\
  (forall msg,
     result (main env ui) w = Raises (PyException msg) ->
     after (main env ui) w = after initialize_session_state w).
Proof.
  intros w. destruct (lifetime_from_fresh events) as [Hok _]. fold w in Hok.
  pose proof (main_result env ui w Hok) as Hmain.
  split.
  - rewrite Hmain, load_whisper_model_result.
    destruct (cache_resource w !! selectbox ui); [done|]. by destruct (whisper_load_model env).
  - intros msg H. rewrite H in Hmain.
    destruct (result (load_whisper_model env (selectbox ui)) w) as [model|e] eqn:Hload.
    + by destruct (button ui).
    + by eapply main_load_failure.
Qed.

(** ** Invariants of the session *)

#[export] Instance load_whisper_model_keeps_session env model_size :
  KeepsSession (load_whisper_model env model_size).
Proof. intros w. apply load_whisper_model_session_state. Qed.

(** A property of the session alone is kept by what keeps the session. *)
Lemma preserves_session (I : world -> Prop) {A} (m : M world A) :
  (forall w w', session_state w' = session_state w -> I w -> I w') ->
  KeepsSession m -> Preserves I m.
Proof. intros HI Hm w H. eapply HI; [|exact H]. apply session_after. Qed.

Lemma session_sound_ext w w' :
  (forall k, k = "transcript" \/ k = "audio_data" \/ k = "transcribed" ->
             session_state w' !! k = session_state w !! k) ->
  session_sound w' = session_sound w.
Proof.
  intros H. unfold session_sound, transcript_trimmed, recording_kept, pending.
  rewrite !H by auto. done.
Qed.

Lemma session_sound_session w w' :
  session_state w' = session_state w -> session_sound w = true -> session_sound w' = true.
Proof. intros H <-. apply session_sound_ext. intros k _. by rewrite H. Qed.

Lemma initialize_session_state_sound :
  Preserves (fun w => session_sound w = true) initialize_session_state.
Proof.
  intros w. unfold session_sound, transcript_trimmed, recording_kept, pending.
  rewrite initialize_session_state_session.
  repeat first [rewrite lookup_setdefault_eq | rewrite lookup_setdefault_ne by done].
  destruct (session_state w !! "transcript"), (session_state w !! "transcribed"),
    (session_state w !! "audio_data"); done.
Qed.

Lemma display_areas_sound debug_mode :
  Preserves (fun w => session_sound w = true) (display_areas debug_mode).
Proof.
  intros w H. rewrite <- H. apply session_sound_ext.
  intros k [->|[->| ->]]; by apply display_areas_lookup.
Qed.

Lemma transcribe_pending_sound env model recording debug_mode dla :
  Preserves (fun w => session_sound w = true)
    (transcribe_pending env model recording debug_mode dla).
Proof.
  intros w H.
  change (wp (transcribe_pending env model recording debug_mode dla)
            (fun _ w' => session_sound w' = true) w).
  unfold transcribe_pending. wp_run.
  - apply wp_any. intros _.
    match goal with |- context [after ?d ?w0] =>
      pose proof (driver_frame env model l debug_mode dla w0) as (_ & _ & _ & _ & _ & Hk);
      destruct (driver_transcript env model l debug_mode dla w0) as (T & HT & Htrim)
    end.
    unfold session_sound, transcript_trimmed, recording_kept, pending.
    rewrite HT, (Hk "audio_data"), (Hk "transcribed") by done.
    cbn [session_state with_session]. map_simpl.
    rewrite bool_decide_eq_true_2 by done. by destruct l.
  - unfold session_sound, transcript_trimmed, recording_kept, pending in *.
    cbn [session_state with_session]. map_simpl.
    apply andb_true_iff in H as [-> _]. simpl.
    match goal with E : negb _ = true |- _ => by rewrite E end.
  - done.
  - done.
  - done.
Qed.

Lemma repeat_transcription_sound :
  Preserves (fun w => session_sound w = true) repeat_transcription.
Proof.
  intros w _. destruct (repeat_transcription_clears w) as (Ht & Ha & Hf).
  unfold session_sound, transcript_trimmed, recording_kept, pending.
  by rewrite Ht, Hf.
Qed.

Lemma main_sound env ui : Preserves (fun w => session_sound w = true) (main env ui).
Proof.
  unfold main. cbv zeta.
  apply preserves_bind; [apply initialize_session_state_sound|intros []].
  apply preserves_bind;
    [apply (preserves_session _ _ session_sound_session), _|intros model].
  apply preserves_bind; [apply display_areas_sound|intros dla].
  apply preserves_bind; [apply transcribe_pending_sound|intros []].
  apply preserves_bind;
    [apply (preserves_session _ _ session_sound_session), _|intros []].
  apply preserves_bind;
    [destruct (button ui); [apply repeat_transcription_sound|apply preserves_ret]|intros []].
  apply (preserves_session _ _ session_sound_session), _.
Qed.

Lemma lifetime_sound events w :
  session_sound w = true -> session_sound (lifetime events w) = true.
Proof.
  revert w. induction events as [|e events IH]; intros w H; [done|].
  simpl. apply IH. destruct e as [env ui|env model_size]; simpl.
  - by apply main_sound.
  - eapply session_sound_session; [|exact H]. apply load_whisper_model_session_state.
Qed.

(** X10: in every state that a process reaches, the transcript of the
    session, when there is one, is a string that is its own trimmed
    form: it has no whitespace at either end. *)
Theorem transcript_always_trimmed events :
  match session_state (lifetime events fresh_world) !! "transcript" with
  | None => True
  | Some (VStr T) => PyStr.strip T = T
  | Some _ => False
  end.
Proof.
  pose proof (lifetime_sound events fresh_world eq_refl) as H.
  apply andb_true_iff in H as [H _]. unfold transcript_trimmed in H.
  destruct (session_state (lifetime events fresh_world) !! "transcript") as [[]|]; try done.
  by apply bool_decide_eq_true in H.
Qed.

(** X11: in every state that a process reaches, a set flag
    [transcribed] comes with a recording that is not empty in
    [audio_data]: whenever the transcript is offered for download, the
    recording is offered too. *)
Theorem transcribed_flag_implies_recording events :
  let w := lifetime events fresh_world in
  pending w = false ->
  exists recording,
    recording <> [] /\ session_state w !! "audio_data" = Some (VBytes recording).
Proof.
  intros w Hp.
  pose proof (lifetime_sound events fresh_world eq_refl) as H. fold w in H.
  apply andb_true_iff in H as [_ H]. unfold recording_kept in H. rewrite Hp in H.
  destruct (session_state w !! "audio_data") as [[| | |[|b rest]|]|]; try done.
  by exists (b :: rest).
Qed.

Lemma transcribed_flag_implies_recording_witness :
  exists recording,
    recording <> [] /\
    session_state
      (lifetime [RunScript (studio (Answers tt) (Fails (py "no audio")) (Answers tt))
                   (recorded riff)] fresh_world) !! "audio_data"
    = Some (VBytes recording).
Proof.
  apply (transcribed_flag_implies_recording
           [RunScript (studio (Answers tt) (Fails (py "no audio")) (Answers tt))
              (recorded riff)]).
  reflexivity.
Defined.

(** ** Reruns keep what the session holds *)

Lemma kept_session k v w w' :
  session_state w' = session_state w -> kept k v w -> kept k v w'.
Proof. unfold kept, pending. by intros ->. Qed.

Lemma initialize_session_state_kept k v :
  Preserves (kept k v) initialize_session_state.
Proof.
  intros w [Hp Hk]. unfold kept, pending in *. rewrite initialize_session_state_session.
  split; [|by do 3 apply lookup_setdefault_Some].
  destruct (session_state w !! "transcribed") as [flag|] eqn:E; [|done].
  repeat first [rewrite lookup_setdefault_eq | rewrite lookup_setdefault_ne by done].
  by rewrite E.
Qed.

Lemma display_areas_keeps debug_mode w k v :
  k <> "debug_log_placeholder" -> session_state w !! k = Some v ->
  session_state (after (display_areas debug_mode) w) !! k = Some v.
Proof.
  intros Hk H. destruct (decide (k = "transcript_display_area")) as [->|Hk'].
  - block_run (fun (w : world) (_ : outcome (option nat)) w' =>
      session_state w' !! "transcript_display_area" = Some v).
    all: unfold display_areas; wp_run; leaf.
  - by rewrite display_areas_lookup.
Qed.

Lemma display_areas_kept debug_mode k v :
  k <> "debug_log_placeholder" -> Preserves (kept k v) (display_areas debug_mode).
Proof.
  intros Hk w [Hp H]. split; [|by apply display_areas_keeps].
  unfold pending in *. by rewrite display_areas_lookup.
Qed.

Lemma transcribe_pending_kept env model recording debug_mode dla k v :
  Preserves (kept k v) (transcribe_pending env model recording debug_mode dla).
Proof.
  intros w [Hp H]. unfold after. by rewrite transcribe_pending_done.
Qed.

Lemma main_kept env ui k v :
  button ui = false -> k <> "debug_log_placeholder" -> Preserves (kept k v) (main env ui).
Proof.
  intros Hb Hk. unfold main. cbv zeta. rewrite Hb.
  apply preserves_bind; [apply initialize_session_state_kept|intros []].
  apply preserves_bind; [apply (preserves_session _ _ (kept_session k v)), _|intros model].
  apply preserves_bind; [by apply display_areas_kept|intros dla].
  apply preserves_bind; [apply transcribe_pending_kept|intros []].
  apply preserves_bind; [apply (preserves_session _ _ (kept_session k v)), _|intros []].
  apply preserves_bind; [apply preserves_ret|intros []].
  apply (preserves_session _ _ (kept_session k v)), _.
Qed.

(** X12: once a recording is transcribed, runs of the script without
    the reset button keep every value of the session but the debug
    placeholder: the transcript, the recording, the flag and the display
    area survive any number of reruns, whatever the widgets hold and
    whatever the collaborators answer. *)
Theorem rerun_keeps_session events w k v :
  pending w = false -> forallb no_reset events = true -> k <> "debug_log_placeholder" ->
  session_state w !! k = Some v ->
  session_state (lifetime events w) !! k = Some v.
Proof.
  intros Hp Hall Hk H.
  enough (kept k v (lifetime events w)) as [_ Hkept] by exact Hkept.
  assert (kept k v w) as Hw by done. clear Hp H. revert w Hw Hall.
  induction events as [|e events IH]; intros w Hw Hall; [done|].
  simpl in Hall. apply andb_true_iff in Hall as [He Hall]. simpl. apply IH; [|done].
  destruct e as [env ui|env model_size]; simpl in *.
  - apply negb_true_iff in He. by apply main_kept.
  - eapply kept_session; [|exact Hw]. apply load_whisper_model_session_state.
Qed.

Lemma rerun_keeps_session_witness :
  session_state
    (lifetime [RunScript (studio (Answers tt) (Answers (py "bye")) (Answers tt))
                 (Widgets "medium" true (Some riff) false)]
       (with_session (insert "transcribed" (VBool true)) told)) !! "transcript"
  = Some (VStr (py "hello")).
Proof.
  apply (rerun_keeps_session
           [RunScript (studio (Answers tt) (Answers (py "bye")) (Answers tt))
              (Widgets "medium" true (Some riff) false)]
           (with_session (insert "transcribed" (VBool true)) told)
           "transcript" (VStr (py "hello"))); [reflexivity|reflexivity|done|reflexivity].
Defined.

Lemma main_calls_model env ui w audio_data stem :
  audio_input ui = Some audio_data -> audio_data <> [] -> pending w = true ->
  whisper_load_model env = Answers tt -> areas_ok w = true -> button ui = false ->
  mkstemp env = Answers stem -> files w !! (stem +:+ ".wav") = None ->
  file_write env = Answers tt -> file_close env = Answers tt ->
  exists handle,
    transcribe_calls (after (main env ui) w)
    = transcribe_calls w ++ [(handle, stem +:+ ".wav")].
Proof.
  intros Ha Hne Hp Hl Hok Hb Hs Hf Hw Hc.
  change (wp (main env ui) (fun _ w' => exists handle,
    transcribe_calls w' = transcribe_calls w ++ [(handle, stem +:+ ".wav")]) w).
  unfold main. cbv zeta. rewrite Ha, Hb.
  apply wp_bind. eapply wp_returns; [unfold result; by rewrite initialize_session_state_run|].
  destruct (load_whisper_model_returns env (selectbox ui) (after initialize_session_state w) Hl)
    as [model Hmodel].
  apply wp_bind. eapply wp_returns; [exact Hmodel|].
  destruct (display_areas_returns (checkbox ui)
              (after (load_whisper_model env (selectbox ui)) (after initialize_session_state w)))
    as (dla & id & Hdla & Harea); [by rewrite areas_ok_at_display|].
  apply wp_bind. eapply wp_returns; [exact Hdla|].
  destruct (flag_at_guard env ui w Hp) as (v & Hv & Hfalse).
  apply wp_bind. eapply wp_rewrite; [by eapply transcribe_pending_fires|].
  set (w3 := after (display_areas (checkbox ui)) _) in *.
  set (w4 := with_session (insert "transcribed" (VBool true)) _).
  set (drv := process_and_transcribe_buffer env model audio_data (checkbox ui) dla).
  change (fst (drv w4)) with (result drv w4). change (snd (drv w4)) with (after drv w4).
  assert (files w4 = files w) as Hfiles.
  { subst w4 w3. unfold after at 3. rewrite initialize_session_state_run. by world_simpl. }
  assert (transcribe_calls w4 = transcribe_calls w) as Hbefore.
  { subst w4 w3. unfold after at 3. rewrite initialize_session_state_run. by world_simpl. }
  pose proof (driver_transcribe_calls env model audio_data (checkbox ui) dla w4) as Hcalls.
  pose proof (driver_returns env model audio_data (checkbox ui) dla w4) as Hret.
  fold drv in Hcalls, Hret.
  rewrite Hs, Hfiles, Hf, Hw, Hc, Hbefore in Hcalls. rewrite Hret. clear Hret.
  generalize dependent (after drv w4). intros w5 Hcalls.
  apply wp_bind, wp_any. intros [[]|?]; [|exists model; leaf].
  apply wp_bind. wp_step. apply wp_any. intros ?. exists model. leaf.
Qed.

(** X13: the reset button re-arms the transcription.  After a run in
    which it is pressed, the next run on a recording with content ends
    normally with the flag set and the recording stored, whatever the
    session held before and however the [try] block of the driver goes.
    The model is called again when the temporary file is created,
    written and closed; the transcript is the trimmed text of the model
    when the [try] block runs to its end, and empty when it fails. *)
Theorem reset_rearms_transcription events env1 ui1 env2 ui2 audio_data :
  button ui1 = true -> whisper_load_model env1 = Answers tt ->
  audio_input ui2 = Some audio_data -> audio_data <> [] -> button ui2 = false ->
  whisper_load_model env2 = Answers tt ->
  let w1 := after (main env1 ui1) (lifetime events fresh_world) in
  let w2 := after (main env2 ui2) w1 in
  result (main env2 ui2) w1 = Returns tt /\
  session_state w2 !! "transcribed" = Some (VBool true) /\
  session_state w2 !! "audio_data" = Some (VBytes audio_data) /\
  (forall stem,
     mkstemp env2 = Answers stem -> files w1 !! (stem +:+ ".wav") = None ->
     file_write env2 = Answers tt -> file_close env2 = Answers tt ->
     exists handle,
       transcribe_calls w2 = transcribe_calls w1 ++ [(handle, stem +:+ ".wav")]) /\
  (forall text,
     attempt_succeeds env2 audio_data w1 text ->
     session_state w2 !! "transcript" = Some (VStr (PyStr.strip text))) /\
  (attempt_fails env2 audio_data w1 ->
   session_state w2 !! "transcript" = Some (VStr [])).
Proof.
  intros Hb1 Hl1 Ha Hne Hb2 Hl2 w1 w2. subst w2.
  pose proof (lifetime_session_ok events fresh_world eq_refl) as Hok.
  assert (areas_ok (lifetime events fresh_world) = true) as Hareas.
  { by apply andb_true_iff in Hok as [? _]. }
  destruct (main_reset env1 ui1 _ Hb1 Hl1 Hareas) as (_ & _ & _ & Hflag). fold w1 in Hflag.
  assert (areas_ok w1 = true) as Hareas1.
  { pose proof (main_preserves env1 ui1 _ Hok) as Hok1. fold w1 in Hok1.
    by apply andb_true_iff in Hok1 as [? _]. }
  assert (pending w1 = true) as Hp by (unfold pending; by rewrite Hflag).
  destruct (main_transcribes env2 ui2 w1 audio_data Ha Hne Hp Hl2 Hareas1 Hb2)
    as (T & errs & Hr & Hf & Haudio & Ht & _ & _ & Hcase).
  do 3 (split; [done|]). split; [|split].
  - intros stem Hs Hnew Hw Hc. by eapply main_calls_model.
  - intros text Hs. destruct Hcase as [(text' & Hs' & -> & _)|(Hfail & _)].
    + by rewrite (attempt_succeeds_text _ _ _ _ _ Hs Hs') in Ht.
    + destruct (attempt_not_both env2 audio_data w1 text Hs Hfail).
  - intros Hfail. destruct Hcase as [(text & Hs & _)|(_ & -> & _)]; [|done].
    destruct (attempt_not_both env2 audio_data w1 text Hs Hfail).
Qed.

Lemma reset_rearms_transcription_witness :
  result (main (studio (Answers tt) (Fails (py "no audio")) (Answers tt)) (recorded riff))
    (after (main (studio (Answers tt) (Answers (py "hello")) (Answers tt))
              (Widgets "base" false (Some riff) true))
       (lifetime [RunScript (studio (Answers tt) (Answers (py "first")) (Answers tt))
                    (recorded riff)] fresh_world))
  = Returns tt /\
  session_state
    (after (main (studio (Answers tt) (Fails (py "no audio")) (Answers tt)) (recorded riff))
       (after (main (studio (Answers tt) (Answers (py "hello")) (Answers tt))
                 (Widgets "base" false (Some riff) true))
          (lifetime [RunScript (studio (Answers tt) (Answers (py "first")) (Answers tt))
                       (recorded riff)] fresh_world))) !! "transcribed"
  = Some (VBool true).
Proof.
  destruct (reset_rearms_transcription
              [RunScript (studio (Answers tt) (Answers (py "first")) (Answers tt))
                 (recorded riff)]
              (studio (Answers tt) (Answers (py "hello")) (Answers tt))
              (Widgets "base" false (Some riff) true)
              (studio (Answers tt) (Fails (py "no audio")) (Answers tt)) (recorded riff)
              riff) as (Hr & Hflag & _); try reflexivity; [discriminate|].
  exact (conj Hr Hflag).
Defined.

(** ** The temporary directory over the life of a process *)

Lemma transcribe_pending_files env model recording debug_mode dla w :
  file_write env = Answers tt -> os_remove env = Answers tt ->
  files (after (transcribe_pending env model recording debug_mode dla) w) = files w.
Proof.
  intros Hw Hr.
  block_run (fun (w : world) (_ : outcome unit) w' => files w' = files w).
  unfold transcribe_pending. wp_run.
  1: apply wp_any; intros _; by rewrite driver_files_tidy.
  all: done.
Qed.

Lemma main_files env ui w :
  file_write env = Answers tt -> os_remove env = Answers tt ->
  files (after (main env ui) w) = files w.
Proof.
  intros Hw Hr.
  change (wp (main env ui) (fun _ w' => files w' = files w) w).
  unfold main. cbv zeta.
  skip_block. skip_block. skip_block.
  apply wp_bind, wp_any.
  intros [[]|?]; [|rewrite transcribe_pending_files by done; leaf].
  apply wp_bind, wp_any.
  intros [[]|?]; [|world_simpl; rewrite transcribe_pending_files by done; leaf].
  apply wp_bind. destruct (button ui).
  - apply wp_any. intros [[]|?]; [apply wp_any; intros ?|];
      world_simpl; rewrite transcribe_pending_files by done; leaf.
  - wp_step. apply wp_any. intros ?.
    world_simpl; rewrite transcribe_pending_files by done; leaf.
Qed.

(** X14: as long as writing the recording and deleting the file go
    through in every run, the temporary directory is after any number
    of runs as it was at the start, whatever else fails. *)
Theorem no_temp_files_accumulate events w :
  forallb tidy events = true -> files (lifetime events w) = files w.
Proof.
  revert w. induction events as [|e events IH]; intros w Hall; [done|].
  simpl in Hall. apply andb_true_iff in Hall as [He Hall]. simpl.
  rewrite IH by done. destruct e as [env ui|env model_size]; simpl in *.
  - destruct (file_write env) as [[]|] eqn:Hw; [|done].
    destruct (os_remove env) as [[]|] eqn:Hr; [|done]. by apply main_files.
  - apply load_whisper_model_files.
Qed.

Lemma no_temp_files_accumulate_witness :
  files
    (lifetime [RunScript (studio (Answers tt) (Fails (py "no audio")) (Answers tt))
                 (recorded riff);
               RunScript (studio (Answers tt) (Answers (py "hello")) (Answers tt))
                 (Widgets "base" true (Some riff) true)]
       fresh_world)
  = files fresh_world.
Proof.
  apply (no_temp_files_accumulate
           [RunScript (studio (Answers tt) (Fails (py "no audio")) (Answers tt))
              (recorded riff);
            RunScript (studio (Answers tt) (Answers (py "hello")) (Answers tt))
              (Widgets "base" true (Some riff) true)]
           fresh_world).
  reflexivity.
Defined.

(** ** The model that transcribes *)

Lemma load_whisper_model_sound env model_size w :
  cache_sound w -> cache_sound (after (load_whisper_model env model_size) w).
Proof.
  intros H s h. unfold after. rewrite load_whisper_model_run.
  destruct (cache_resource w !! model_size) eqn:E; [apply H|].
  destruct (whisper_load_model env); [|apply H].
  cbn [snd cache_resource loaded with_cache with_loaded].
  destruct (decide (model_size = s)) as [->|Hne].
  - rewrite lookup_insert_eq. intros [= <-]. eexists.
    rewrite lookup_app_r by done. by rewrite Nat.sub_diag.
  - rewrite lookup_insert_ne by done. intros Hs. destruct (H s h Hs) as [d Hd].
    exists d. by apply lookup_app_l_Some.
Qed.

Lemma happen_sound w e : cache_sound w -> cache_sound (happen w e).
Proof.
  destruct e as [env ui|env model_size]; simpl; [|apply load_whisper_model_sound].
  intros H s h. destruct (main_cache env ui w) as [-> ->].
  by apply load_whisper_model_sound.
Qed.

Lemma lifetime_cache_sound events w : cache_sound w -> cache_sound (lifetime events w).
Proof.
  revert w. induction events as [|e events IH]; intros w H; [done|].
  simpl. apply IH. by apply happen_sound.
Qed.

Lemma transcribe_pending_calls env model recording debug_mode dla w :
  exists calls,
    transcribe_calls (after (transcribe_pending env model recording debug_mode dla) w)
    = transcribe_calls w ++ calls /\
    (calls = [] \/ exists path, calls = [(model, path)]).
Proof.
  block_run (fun (w : world) (_ : outcome unit) w' =>
    exists calls, transcribe_calls w' = transcribe_calls w ++ calls /\
                  (calls = [] \/ exists path, calls = [(model, path)])).
  unfold transcribe_pending. wp_run.
  1: { apply wp_any. intros _. rewrite driver_transcribe_calls.
       cbn [transcribe_calls with_session]. eexists. split; [reflexivity|].
       destruct (mkstemp env); [|by left].
       repeat case_match; eauto. }
  all: exists []; split; [by rewrite app_nil_r|by left].
Qed.

Lemma main_transcribe_calls env ui w :
  exists calls,
    transcribe_calls (after (main env ui) w) = transcribe_calls w ++ calls /\
    (calls = [] \/
     exists handle path,
       calls = [(handle, path)] /\
       result (load_whisper_model env (selectbox ui)) w = Returns handle).
Proof.
  change (wp (main env ui) (fun _ w' =>
    exists calls, transcribe_calls w' = transcribe_calls w ++ calls /\
      (calls = [] \/
       exists handle path,
         calls = [(handle, path)] /\
         result (load_whisper_model env (selectbox ui)) w = Returns handle)) w).
  unfold main. cbv zeta.
  apply wp_bind. eapply wp_returns; [unfold result; by rewrite initialize_session_state_run|].
  apply wp_bind. unfold wp at 1. rewrite load_whisper_model_result_init.
  destruct (result (load_whisper_model env (selectbox ui)) w) as [model|e] eqn:Hload;
    [|exists []; split; [rewrite app_nil_r; leaf|by left]].
  apply wp_bind, wp_any.
  intros [dla|?]; [|exists []; split; [rewrite app_nil_r; leaf|by left]].
  match goal with |- wp (bind (transcribe_pending _ _ _ _ _) _) _ ?w0 =>
    destruct (transcribe_pending_calls env model (audio_input ui) (checkbox ui) dla w0)
      as (calls & Hcalls & Hcase);
    assert (transcribe_calls w0 = transcribe_calls w) as Hbefore by leaf
  end.
  rewrite Hbefore in Hcalls.
  assert (calls = [] \/
          exists handle path, calls = [(handle, path)] /\ Returns model = Returns handle) as Hc.
  { destruct Hcase as [->|[path ->]]; [by left|right; eauto]. }
  apply wp_bind, wp_any. intros [[]|?]; [|by exists calls].
  apply wp_bind, wp_any. intros [[]|?]; [|exists calls; split; [leaf|done]].
  apply wp_bind. destruct (button ui).
  - apply wp_any. intros [[]|?]; [apply wp_any; intros ?|];
      (exists calls; split; [leaf|done]).
  - wp_step. apply wp_any. intros ?. exists calls; split; [leaf|done].
Qed.

(** X15: a run of the script calls the model at most once, and the
    model that transcribes is the one of the size selected in the
    sidebar: its handle is the entry of the resource cache for that
    size, and it is a model that [whisper.load_model] returned for that
    size. *)
Theorem transcription_uses_selected_model events env ui :
  let w := lifetime events fresh_world in
  let w' := after (main env ui) w in
  exists calls,
    transcribe_calls w' = transcribe_calls w ++ calls /\
    length calls <= 1 /\
    forall handle path,
      (handle, path) ∈ calls ->
      cache_resource w' !! selectbox ui = Some handle /\
      exists d, loaded w' !! handle = Some (selectbox ui, d).
Proof.
  intros w w'. subst w'.
  destruct (main_transcribe_calls env ui w) as (calls & Hcalls & Hcase).
  exists calls. split; [done|].
  destruct Hcase as [->|(handle & path & -> & Hload)]; [split; [simpl; lia|]|split; [done|]].
  - intros handle path H. by apply elem_of_nil in H.
  - intros h p [= -> ->]%list_elem_of_singleton.
    destruct (main_cache env ui w) as [-> ->].
    pose proof (load_whisper_model_cached env (selectbox ui) w handle Hload) as Hhit.
    split; [done|].
    eapply (load_whisper_model_sound env (selectbox ui) w); [|exact Hhit].
    apply lifetime_cache_sound. by intros s h'.
Qed.

(** ** What a run shows at its end *)

Lemma bind_returns_inv {S A B} (m : M S A) (k : A -> M S B) s b :
  result (bind m k) s = Returns b ->
  exists a, result m s = Returns a /\ result (k a) (after m s) = Returns b /\
            after (bind m k) s = after (k a) (after m s).
Proof.
  unfold result, after, bind. destruct (m s) as [[a|e] s']; simpl; [|done]. eauto.
Qed.

Lemma repeat_transcription_stops w : result repeat_transcription w <> Returns tt.
Proof.
  change (wp repeat_transcription (fun r _ => r <> Returns tt) w).
  unfold repeat_transcription. wp_run. all: done.
Qed.

Lemma download_buttons_page w :
  result download_buttons w = Returns tt ->
  page (after download_buttons w) = page w ++ downloads (session_state w).
Proof.
  change (wp download_buttons (fun r w' =>
            r = Returns tt -> page w' = page w ++ downloads (session_state w)) w).
  unfold download_buttons, downloads. wp_run.
  all: try done.
  all: intros _; leaf; unfold Datatypes.id.
  all: repeat match goal with H : truthy _ = _ |- _ => rewrite H end.
  all: by rewrite ?app_nil_r.
Qed.

Lemma display_transcript_page w :
  result display_transcript w = Returns tt ->
  page (after display_transcript w) = page w ++ transcript_display (session_state w).
Proof.
  change (wp display_transcript (fun r w' =>
            r = Returns tt -> page w' = page w ++ transcript_display (session_state w)) w).
  unfold display_transcript, transcript_display. wp_run.
  all: try done.
  all: intros _; leaf; unfold Datatypes.id.
  all: repeat match goal with H : truthy _ = _ |- _ => rewrite H end.
  all: done.
Qed.

(** X16: a run of the script that ends normally has the page end with
    what the session holds at that moment: the download of the
    recording when [audio_data] is set, the download of the transcript
    when [transcribed] is set, and the transcript in the display area of
    the session, or "*No transcription yet.*" when it is empty. *)
Theorem run_ends_with_session_rendered env ui w :
  result (main env ui) w = Returns tt ->
  exists before,
    page (after (main env ui) w)
    = before ++ downloads (session_state (after (main env ui) w))
      ++ transcript_display (session_state (after (main env ui) w)).
Proof.
  unfold main. cbv zeta. intros H.
  apply bind_returns_inv in H as ([] & _ & H & ->).
  apply bind_returns_inv in H as (model & _ & H & ->).
  apply bind_returns_inv in H as (dla & _ & H & ->).
  apply bind_returns_inv in H as ([] & _ & H & ->).
  apply bind_returns_inv in H as ([] & Hdl & H & ->).
  apply bind_returns_inv in H as ([] & Hb & H & ->).
  destruct (button ui); [by apply repeat_transcription_stops in Hb|].
  change (after (ret tt) ?w) with w in *.
  rewrite (display_transcript_page _ H), (download_buttons_page _ Hdl).
  rewrite (@session_after _ display_transcript _), (@session_after _ download_buttons _).
  eexists. by rewrite <- app_assoc.
Qed.

Lemma run_ends_with_session_rendered_witness :
  exists before,
    page (after (main (studio (Answers tt) (Answers (py " hi ")) (Answers tt)) (recorded riff))
            fresh_world)
    = before
      ++ downloads
           (session_state
              (after (main (studio (Answers tt) (Answers (py " hi ")) (Answers tt))
                        (recorded riff)) fresh_world))
      ++ transcript_display
           (session_state
              (after (main (studio (Answers tt) (Answers (py " hi ")) (Answers tt))
                        (recorded riff)) fresh_world)).
Proof.
  apply (run_ends_with_session_rendered
           (studio (Answers tt) (Answers (py " hi ")) (Answers tt)) (recorded riff)
           fresh_world).
  vm_compute. reflexivity.
Defined.

(** ** Without debug mode nothing is logged *)

Lemma debug_lines_app p q : debug_lines (p ++ q) = debug_lines p ++ debug_lines q.
Proof. apply List.filter_app. Qed.

Ltac quiet_leaf :=
  unfold quiet;
  repeat first
    [ progress cbn [stdout page with_session with_cache with_loaded with_files
                    with_transcribe_calls with_page with_stdout with_placeholders]
    | rewrite debug_lines_app
    | progress cbn [debug_lines List.filter is_debug_write] ];
  rewrite ?app_nil_r; try done.

Lemma driver_quiet env model audio_data debug_mode debug_log_container w :
  debug_mode = false \/ debug_log_container = None ->
  quiet w (after (process_and_transcribe_buffer env model audio_data debug_mode
                    debug_log_container) w).
Proof.
  intros Hq.
  assert (forall message w0,
            after (d_write env debug_mode debug_log_container message) w0 = w0) as Hoff.
  { intros message w0. unfold after. by rewrite d_write_off. }
  match goal with
  | |- quiet _ (after ?d _) => change (wp d (fun _ w' => quiet w w') w)
  end.
  unfold process_and_transcribe_buffer; cbv zeta; wp_run.
  all: rewrite ?Hoff.
  all: quiet_leaf.
Qed.

Lemma quiet_preserves {A} (m : M world A) w0 :
  (forall w, quiet w (after m w)) -> Preserves (quiet w0) m.
Proof. intros H w [H1 H2]. destruct (H w) as [H3 H4]. split; congruence. Qed.

Lemma initialize_session_state_quiet w : quiet w (after initialize_session_state w).
Proof. unfold after. by rewrite initialize_session_state_run. Qed.

Lemma load_whisper_model_quiet env model_size w :
  quiet w (after (load_whisper_model env model_size) w).
Proof.
  unfold after. rewrite load_whisper_model_run.
  destruct (cache_resource w !! model_size); [done|]. by destruct (whisper_load_model env).
Qed.

Lemma display_areas_quiet debug_mode w : quiet w (after (display_areas debug_mode) w).
Proof.
  block_run (fun w (_ : outcome (option nat)) w' => quiet w w').
  all: unfold display_areas; wp_run; quiet_leaf.
Qed.

Lemma transcribe_pending_quiet env model recording dla w :
  quiet w (after (transcribe_pending env model recording false dla) w).
Proof.
  block_run (fun w (_ : outcome unit) w' => quiet w w').
  unfold transcribe_pending. wp_run.
  1: { apply wp_any. intros _.
       match goal with |- quiet _ (after ?d ?w0) =>
         destruct (driver_quiet env model l false dla w0) as [H1 H2]; [by left|]
       end.
       split; [by rewrite H1|by rewrite H2]. }
  all: quiet_leaf.
Qed.

Lemma download_buttons_quiet w : quiet w (after download_buttons w).
Proof.
  block_run (fun w (_ : outcome unit) w' => quiet w w').
  all: unfold download_buttons; wp_run; quiet_leaf.
Qed.

Lemma repeat_transcription_quiet w : quiet w (after repeat_transcription w).
Proof.
  block_run (fun w (_ : outcome unit) w' => quiet w w').
  all: unfold repeat_transcription; wp_run; quiet_leaf.
Qed.

Lemma display_transcript_quiet w : quiet w (after display_transcript w).
Proof.
  block_run (fun w (_ : outcome unit) w' => quiet w w').
  all: unfold display_transcript; wp_run; quiet_leaf.
Qed.

(** X17: without debug mode a run of the script prints nothing and
    writes no line to a debug container, from every state and whatever
    the collaborators answer. *)
Theorem no_debug_output_without_debug_mode env ui w :
  checkbox ui = false ->
  stdout (after (main env ui) w) = stdout w /\
  debug_lines (page (after (main env ui) w)) = debug_lines (page w).
Proof.
  intros Hc.
  enough (Preserves (quiet w) (main env ui)) as H by (by apply H).
  unfold main. cbv zeta. rewrite Hc.
  apply preserves_bind; [apply quiet_preserves, initialize_session_state_quiet|intros []].
  apply preserves_bind; [apply quiet_preserves, load_whisper_model_quiet|intros model].
  apply preserves_bind; [apply quiet_preserves, display_areas_quiet|intros dla].
  apply preserves_bind; [apply quiet_preserves, transcribe_pending_quiet|intros []].
  apply preserves_bind; [apply quiet_preserves, download_buttons_quiet|intros []].
  apply preserves_bind;
    [destruct (button ui);
       [apply quiet_preserves, repeat_transcription_quiet|apply preserves_ret]|intros []].
  apply quiet_preserves, display_transcript_quiet.
Qed.

Lemma no_debug_output_without_debug_mode_witness :
  stdout (after (main (studio (Answers tt) (Fails (py "no audio")) (Fails (py "busy")))
                   (recorded riff)) fresh_world)
  = stdout fresh_world.
Proof.
  apply (no_debug_output_without_debug_mode
           (studio (Answers tt) (Fails (py "no audio")) (Fails (py "busy")))
           (recorded riff) fresh_world).
  reflexivity.
Defined.

(** ** The initialization of the backend *)

Lemma initialize_backend_run t w :
  initialize_backend t w
  = match raised_in_warm_up t with
    | None => (Returns tt, w)
    | Some (PyException e) =>
        (Returns tt,
         with_stdout
           (fun o => o ++ [py "Warning: PyTorch dummy initialization failed: " ++ e]) w)
    | Some e => (Raises e, w)
    end.
Proof.
  unfold initialize_backend, raised_in_warm_up, try_except, bind, ends, ret, print, modify.
  destruct (torch_cuda_is_available t) as [[]|[]], (tensor_cuda t) as [[]|[]],
    (tensor_cpu t) as [[]|[]]; done.
Qed.

(** X18: the initialization of the backend when the module is imported
    catches every [Exception] of its three calls: it then returns and
    prints one warning with the message of the first call that raised;
    when all calls return it prints nothing.  An exception that is not
    an instance of [Exception] is not caught: it leaves the module, and
    nothing is printed.  Nothing but the standard output changes, and
    the tensor on the GPU is only tried when CUDA is reported as
    available. *)
Theorem initialize_backend_catches_exceptions t w :
  let w' := after (initialize_backend t) w in
  result (initialize_backend t) w
  = match raised_in_warm_up t with
    | None | Some (PyException _) => Returns tt
    | Some e => Raises e
    end /\
  session_state w' = session_state w /\ cache_resource w' = cache_resource w /\
  files w' = files w /\ page w' = page w /\
  stdout w'
  = stdout w
    ++ match raised_in_warm_up t with
       | Some (PyException e) => [py "Warning: PyTorch dummy initialization failed: " ++ e]
       | _ => []
       end /\
  (torch_cuda_is_available t = Returns false ->
   raised_in_warm_up t
   = match tensor_cpu t with Raises e => Some e | Returns _ => None end).
Proof.
  intros w'. subst w'. unfold result, after. rewrite initialize_backend_run.
  split; [|split; [|split; [|split; [|split; [|split]]]]].
  7: { intros H. unfold raised_in_warm_up. by rewrite H. }
  all: destruct (raised_in_warm_up t) as [[]|]; cbn; by rewrite ?app_nil_r.
Qed.
